(** * Risk fusion and escalation engine of the loneliness-detection backend

    Shallow embedding of [backend/models/risk_assessment.py]
    ([RiskCalculator]) and of the orchestration in
    [backend/agents/detection_agent.py] and
    [backend/agents/intervention_agent.py], then of [core/utils.py] and of
    the event-matching, calendar and Spotify tools the agents call.

    Modelling conventions:
    - Python numbers ([int] and [float]) are modelled as exact rationals
      [Q]; float rounding is not modelled.
    - A metrics dict is a record of [option Q] fields: [None] is a missing
      key, and [dict.get(key, default)] is [get].
    - A Python exception is the [Err] branch of [result].
    - An f-string explanation sentence is the constructor of [Explanation]
      carrying the values it interpolates. *)

From Stdlib Require Import QArith Qround Lqa ZArith Lia String List Bool Ascii Sorted Permutation Qabs.
Import ListNotations.

Open Scope string_scope.
Open Scope list_scope.
Open Scope Q_scope.

(** ** Python primitives *)

Inductive py_error : Type :=
| ZeroDivisionError.

Inductive result (A : Type) : Type :=
| Ok (a : A)
| Err (e : py_error).

Arguments Ok {A} a.
Arguments Err {A} e.

(** [a < b] on numbers. *)
Definition py_lt (a b : Q) : bool := negb (Qle_bool b a).

(** [a <= b] on numbers. *)
Definition py_le (a b : Q) : bool := Qle_bool a b.

(** [min(a, b)]: the first argument unless the second is smaller. *)
Definition py_min (a b : Q) : Q := if py_lt b a then b else a.

(** [max(a, b)]: the first argument unless the second is larger. *)
Definition py_max (a b : Q) : Q := if py_lt a b then b else a.

(** [a / b] where the divisor may be zero. *)
Definition py_div (a b : Q) : result Q :=
  if Qeq_bool b 0 then Err ZeroDivisionError else Ok (a / b).

(** [round(x)]: nearest integer, ties to the even one. *)
Definition py_round (x : Q) : Z :=
  let f := Qfloor x in
  let d := x - inject_Z f in
  if py_lt d (1 # 2) then f
  else if py_lt (1 # 2) d then (f + 1)%Z
  else if Z.even f then f else (f + 1)%Z.

(** [round(x, 2)]. *)
Definition py_round2 (x : Q) : Q := inject_Z (py_round (x * 100)) / 100.

(** [d.get(key, default)]. *)
Definition get (v : option Q) (default : Q) : Q :=
  match v with
  | Some x => x
  | None => default
  end.

(** ** Metrics dicts *)

Record SpotifyMetrics : Type := {
  baseline_listening_hours : option Q;
  current_listening_hours : option Q;
  late_night_percentage : option Q;
  baseline_valence : option Q;
  current_valence : option Q;
  repeat_listening_percentage : option Q
}.

Record CalendarMetrics : Type := {
  baseline_social_events : option Q;
  current_social_events : option Q;
  declined_invitation_rate : option Q;
  declined_invitations_count : option Q;
  baseline_unique_contacts : option Q;
  current_unique_contacts : option Q
}.

(** The baseline dict: its ["historical_risk"] entry, and whether it holds
    any other key (which makes it truthy without that entry). *)
Record BaselineData : Type := {
  historical_risk : option Q;
  baseline_other_keys : bool
}.

Definition empty_spotify : SpotifyMetrics :=
  {| baseline_listening_hours := None; current_listening_hours := None;
     late_night_percentage := None; baseline_valence := None;
     current_valence := None; repeat_listening_percentage := None |}.

Definition empty_calendar : CalendarMetrics :=
  {| baseline_social_events := None; current_social_events := None;
     declined_invitation_rate := None; declined_invitations_count := None;
     baseline_unique_contacts := None; current_unique_contacts := None |}.

(** ** RiskCalculator *)

Module RiskCalculator.

Definition SPOTIFY_WEIGHT : Q := 4 # 10.
Definition CALENDAR_WEIGHT : Q := 5 # 10.
Definition BASELINE_WEIGHT : Q := 1 # 10.

Definition RISK_CATEGORIES : list (string * (Q * Q)) :=
  [("low", (0, 25)); ("mild", (26, 50)); ("moderate", (51, 75));
   ("high", (76, 100))].

Definition calculate_spotify_score (m : SpotifyMetrics) : Q :=
  let score := 0 in
  let baseline_hours := get m.(baseline_listening_hours) 15 in
  let current_hours := get m.(current_listening_hours) 15 in
  let score :=
    if py_lt 0 baseline_hours then
      let listening_spike_ratio := current_hours / baseline_hours in
      if py_lt 2 listening_spike_ratio then score + (75 # 2)
      else if py_lt 1 listening_spike_ratio
      then score + (listening_spike_ratio - 1) * (75 # 2)
      else score
    else score in
  let late_night_pct := get m.(late_night_percentage) 0 in
  let score := score + py_min 25 ((late_night_pct / 50) * 25) in
  let bv := get m.(baseline_valence) (1 # 2) in
  let cv := get m.(current_valence) (1 # 2) in
  let valence_decline := bv - cv in
  let score :=
    if py_lt 0 valence_decline
    then score + py_min 25 ((valence_decline / (3 # 10)) * 25)
    else score in
  let repeat_percentage := get m.(repeat_listening_percentage) 0 in
  let score := score + py_min (25 # 2) ((repeat_percentage / 40) * (25 # 2)) in
  py_min 100 score.

Definition calculate_calendar_score (m : CalendarMetrics) : Q :=
  let score := 0 in
  let baseline_events := get m.(baseline_social_events) 8 in
  let current_events := get m.(current_social_events) 8 in
  let score :=
    if py_lt 0 baseline_events then
      let decline_ratio := (baseline_events - current_events) / baseline_events in
      score + py_min 50 (decline_ratio * (6667 # 100))
    else score in
  let declined_rate := get m.(declined_invitation_rate) 0 in
  let score := score + py_min 30 ((declined_rate / 50) * 30) in
  let bc := get m.(baseline_unique_contacts) 5 in
  let cc := get m.(current_unique_contacts) 5 in
  let score :=
    if py_lt 0 bc then
      let contact_decline_ratio := (bc - cc) / bc in
      score + py_min 20 ((contact_decline_ratio / (1 # 2)) * 20)
    else score in
  py_min 100 score.

(** [if not baseline_data: return 10.0] *)
Definition baseline_truthy (b : option BaselineData) : bool :=
  match b with
  | None => false
  | Some d =>
      match d.(historical_risk) with
      | Some _ => true
      | None => d.(baseline_other_keys)
      end
  end.

Definition calculate_baseline_risk (b : option BaselineData) : Q :=
  match b with
  | Some d =>
      if baseline_truthy b
      then py_min 100 (py_max 0 (get d.(historical_risk) 10))
      else 10
  | None => 10
  end.

(** The loop over [RISK_CATEGORIES], in insertion order. *)
Fixpoint find_level (cats : list (string * (Q * Q))) (score : Q) : string :=
  match cats with
  | [] => "unknown"
  | (level, (min_score, max_score)) :: rest =>
      if py_le min_score score && py_le score max_score then level
      else find_level rest score
  end.

Definition get_risk_level (score : Q) : string :=
  find_level RISK_CATEGORIES score.

(** Sentences of [generate_risk_explanation], each with the values its
    f-string interpolates. *)
Inductive Explanation : Type :=
| ListeningIncreased (baseline_hours current_hours : Q)
| LateNightListening (late_night_pct : Q)
| MoodShift (baseline_valence current_valence : Q)
| FrequentReplay (repeat_pct : Q)
| SocialEventsDeclined (decline_pct baseline_events current_events : Q)
| DeclinedInvitations (declined_invitations : Q)
| ReducedContacts (baseline_contacts current_contacts : Q)
(** ["No significant isolation patterns detected"] *)
| NoSignificantPatterns.

Definition generate_risk_explanation (sm : SpotifyMetrics) (cm : CalendarMetrics)
    : result (list Explanation) :=
  let explanations := [] in
  let baseline_hours := get sm.(baseline_listening_hours) 15 in
  let current_hours := get sm.(current_listening_hours) 15 in
  let explanations :=
    if py_lt (baseline_hours * (15 # 10)) current_hours
    then explanations ++ [ListeningIncreased baseline_hours current_hours]
    else explanations in
  let late_night_pct := get sm.(late_night_percentage) 0 in
  let explanations :=
    if py_lt 40 late_night_pct
    then explanations ++ [LateNightListening late_night_pct]
    else explanations in
  let bv := get sm.(baseline_valence) (1 # 2) in
  let cv := get sm.(current_valence) (1 # 2) in
  let valence_decline := bv - cv in
  let explanations :=
    if py_lt (2 # 10) valence_decline
    then explanations ++ [MoodShift bv cv]
    else explanations in
  let repeat_pct := get sm.(repeat_listening_percentage) 0 in
  let explanations :=
    if py_lt 30 repeat_pct
    then explanations ++ [FrequentReplay repeat_pct]
    else explanations in
  let baseline_events := get cm.(baseline_social_events) 8 in
  let current_events := get cm.(current_social_events) 8 in
  let step5 :=
    if py_lt current_events baseline_events then
      match py_div (baseline_events - current_events) baseline_events with
      | Ok q =>
          let decline_pct := q * 100 in
          Ok (explanations
                ++ [SocialEventsDeclined decline_pct baseline_events current_events])
      | Err e => Err e
      end
    else Ok explanations in
  match step5 with
  | Err e => Err e
  | Ok explanations =>
      let declined_invitations := get cm.(declined_invitations_count) 0 in
      let explanations :=
        if py_lt 0 declined_invitations
        then explanations ++ [DeclinedInvitations declined_invitations]
        else explanations in
      let baseline_contacts := get cm.(baseline_unique_contacts) 5 in
      let current_contacts := get cm.(current_unique_contacts) 5 in
      let explanations :=
        if py_lt current_contacts (baseline_contacts * (7 # 10))
        then explanations ++ [ReducedContacts baseline_contacts current_contacts]
        else explanations in
      let explanations :=
        match explanations with
        | [] => explanations ++ [NoSignificantPatterns]
        | _ => explanations
        end in
      Ok explanations
  end.

Record Factors : Type := {
  spotify_score : Q;
  calendar_score : Q;
  baseline_score : Q;
  total_score : Q
}.

Record RiskResult : Type := {
  score : Z;
  level : string;
  factors : Factors;
  explanation : list Explanation
}.

Definition calculate_risk (sm : SpotifyMetrics) (cm : CalendarMetrics)
    (baseline_data : option BaselineData) : result RiskResult :=
  let spotify_score := calculate_spotify_score sm in
  let calendar_score := calculate_calendar_score cm in
  let baseline_score := calculate_baseline_risk baseline_data in
  let total_score :=
    spotify_score * SPOTIFY_WEIGHT + calendar_score * CALENDAR_WEIGHT
    + baseline_score * BASELINE_WEIGHT in
  let total_score := py_min 100 (py_max 0 total_score) in
  let risk_level := get_risk_level total_score in
  let factors :=
    {| spotify_score := py_round2 spotify_score;
       calendar_score := py_round2 calendar_score;
       baseline_score := py_round2 baseline_score;
       total_score := py_round2 total_score |} in
  match generate_risk_explanation sm cm with
  | Err e => Err e
  | Ok explanation =>
      Ok {| score := py_round total_score; level := risk_level;
            factors := factors; explanation := explanation |}
  end.

End RiskCalculator.

Import RiskCalculator.

(** ** Intervention agent *)

(** A value of the assessment's ["factors"] dict. *)
Inductive PyVal : Type :=
| PNum (q : Q)
| PStr (s : string)
| PStrList (l : list string)
| PNone.

(** The assessment dict handed to the intervention agent. *)
Record Assessment : Type := {
  a_level : option string;
  a_score : option Z;
  a_factors : option (list (string * PyVal))
}.

(** The prompt handed to the message generator, represented by the
    arguments of [format_crisis_prompt] and [format_intervention_prompt]
    (plus the "Additional Context" appended to the latter). *)
Inductive Prompt : Type :=
| CrisisPrompt (risk_score : Z) (risk_factors : list (string * PyVal))
    (user_message : string)
| InterventionPrompt (risk_score : Z) (risk_explanation : list (string * PyVal))
    (user_message : string) (friend_list : PyVal) (days_since_social_event : PyVal)
    (user_interests : option (list string)) (location : option string)
    (activities_found : nat).

(** Calls made to the collaborators, in order. *)
Inductive Call : Type :=
| CallRecommend (location anxiety_level : string) (interests : list string) (limit : Z)
| CallGenerate (p : Prompt)
| CallStore (user_id : string) (risk_score : Z) (suggestion : string).

Record Payload (Activity : Type) : Type := {
  risk_level : string;
  risk_score : Z;
  message : string;
  activities : list Activity;
  action_items : list string;
  intervention_id : option string
}.

Arguments risk_level {Activity} p.
Arguments risk_score {Activity} p.
Arguments message {Activity} p.
Arguments activities {Activity} p.
Arguments action_items {Activity} p.
Arguments intervention_id {Activity} p.

Module InterventionAgent.

Fixpoint lookup {A : Type} (k : string) (l : list (string * A)) : option A :=
  match l with
  | [] => None
  | (k', v) :: rest => if String.eqb k k' then Some v else lookup k rest
  end.

(** Truthiness of an optional list and of an optional string. *)
Definition list_truthy {A : Type} (o : option (list A)) : bool :=
  match o with
  | Some (_ :: _) => true
  | _ => false
  end.

Definition str_truthy (o : option string) : bool :=
  match o with
  | Some EmptyString | None => false
  | Some _ => true
  end.

(** Python's [needle in haystack] on strings. *)
Fixpoint contains (needle haystack : string) : bool :=
  match haystack with
  | EmptyString => String.prefix needle haystack
  | String _ rest => String.prefix needle haystack || contains needle rest
  end.

(** The templates of [generate_empathetic_message], after [.strip()]. *)
Definition message_low : string :=
"Hey! I've been keeping an eye on your patterns, and things look pretty steady.
        You're doing a great job maintaining your social connections. Keep it up!".

Definition message_moderate : string :=
"I noticed you've been spending a bit more time solo lately - totally normal,
        especially if you're in the middle of exams or busy season. Just wanted to
        check in. How are you feeling about your social energy lately?".

Definition message_elevated : string :=
"I've noticed some patterns that caught my attention. You used to hang out
        with people more often, and your recent listening history suggests you might
        be feeling a bit down. Not judging at all - we all go through phases. But I
        wanted to check in because I care about you. Would you be open to reconnecting
        with someone or trying a low-key social activity?".

Definition message_high : string :=
"Hey, I want to be real with you. I've noticed some concerning patterns -
        you've been isolating more than usual, and your mood seems to have shifted.
        I'm not here to diagnose anything, but as someone who cares about you, I think
        it might be time to reach out to someone. Whether that's a friend, a counselor,
        or just getting out of the house for a bit. You don't have to go through this alone.".

Definition message_critical : string :=
"I'm genuinely worried about you. The patterns I'm seeing suggest you might be
        struggling with serious isolation and possibly depression. Please, please reach
        out to someone you trust or a mental health professional. This is not something
        you should handle alone. There are people who care about you and want to help.

        Crisis Resources:
        - National Suicide Prevention Lifeline: 988
        - Crisis Text Line: Text HOME to 741741
        - TAMU Counseling & Psychological Services: (979) 845-4427".

Definition messages : list (string * string) :=
  [("low", message_low); ("moderate", message_moderate);
   ("elevated", message_elevated); ("high", message_high);
   ("critical", message_critical)].

Definition generate_empathetic_message (risk_level : string) (risk_score : Z) : string :=
  match lookup risk_level messages with
  | Some m => m
  | None => message_moderate
  end.

Definition anxiety_mapping : list (string * string) :=
  [("low", "low"); ("moderate", "low"); ("elevated", "medium");
   ("high", "high"); ("critical", "high")].

(** The if/elif chain building [action_items]. *)
Definition action_items_for (risk_level : string) : list string :=
  if String.eqb risk_level "low" || String.eqb risk_level "moderate" then
    ["Continue maintaining your current social connections";
     "Consider trying one new social activity this week"]
  else if String.eqb risk_level "elevated" then
    ["Reach out to a friend you haven't talked to in a while";
     "Join one small group activity (see recommendations below)";
     "Spend 10 minutes outside in a social space (coffee shop, park)"]
  else if String.eqb risk_level "high" then
    ["Text or call one person you trust today";
     "Schedule a low-pressure social activity within 3 days";
     "Consider talking to a counselor or therapist";
     "Join a structured group activity (less awkward than 'just hanging out')"]
  else if String.eqb risk_level "critical" then
    ["Call or text someone you trust RIGHT NOW";
     "Contact TAMU Counseling Services: (979) 845-4427";
     "Call National Suicide Prevention Lifeline: 988";
     "Go to a public place (don't stay isolated)"]
  else [].

Section Collaborators.

Variable Activity : Type.

(** [EventMatchingTool().recommend_events(location=, anxiety_level=,
    interests=, limit=)]; [Err] is an exception. *)
Variable recommend_events : string -> string -> list string -> Z -> result (list Activity).

(** The Gemini call on the user context; [Err] is an exception
    (import, client or API failure). *)
Variable generate_content : Prompt -> result string.

(** [store_intervention(db, user_id, risk_score, suggestion, event_id,
    event_source)], the event taken from the first activity. *)
Variable store_intervention :
  string -> Z -> string -> option Activity -> result string.

Definition recommend_activities (risk_level : string)
    (interests : option (list string)) (location : option string)
    : list Activity * list Call :=
  if negb (list_truthy interests) || negb (str_truthy location) then ([], [])
  else
    let ints := match interests with Some l => l | None => [] end in
    let loc := match location with Some l => l | None => "" end in
    let anxiety_level :=
      match lookup risk_level anxiety_mapping with
      | Some a => a
      | None => "medium"
      end in
    match recommend_events loc anxiety_level ints 5 with
    | Ok recommendations => (recommendations, [CallRecommend loc anxiety_level ints 5])
    | Err _ => ([], [CallRecommend loc anxiety_level ints 5])
    end.

Definition assessment_level (ra : Assessment) : string :=
  match ra.(a_level) with Some l => l | None => "moderate" end.

Definition assessment_score (ra : Assessment) : Z :=
  match ra.(a_score) with Some s => s | None => 50%Z end.

(** [activities = []; if risk_level != "critical": activities = await
    recommend_activities(...)] *)
Definition gated_recommendations (risk_level : string)
    (user_interests : option (list string)) (user_location : option string)
    : list Activity * list Call :=
  if negb (String.eqb risk_level "critical")
  then recommend_activities risk_level user_interests user_location
  else ([], []).

(** The prompt construction of [run_intervention]: the crisis prompt for
    [risk_score >= 76], otherwise the standard prompt and its additional
    context. *)
Definition build_user_context (risk_score : Z) (factors : list (string * PyVal))
    (user_message : option string) (user_interests : option (list string))
    (user_location : option string) (activities : list Activity) : Prompt :=
  let friend_list :=
    match lookup "recurring_contacts" factors with Some v => v | None => PStrList [] end in
  let days_since_social :=
    match lookup "days_since_social_event" factors with Some v => v | None => PNone end in
  let msg :=
    if str_truthy user_message
    then match user_message with Some m => m | None => "" end
    else "User is checking in" in
  if Z.leb 76 risk_score then CrisisPrompt risk_score factors msg
  else InterventionPrompt risk_score factors msg friend_list days_since_social
         user_interests user_location (length activities).

Definition run_intervention (ra : Assessment) (user_id : option string)
    (user_interests : option (list string)) (user_location : option string)
    (user_message : option string) (db_session : bool)
    : Payload Activity * list Call :=
  let risk_level := assessment_level ra in
  let risk_score := assessment_score ra in
  let factors := match ra.(a_factors) with Some f => f | None => [] end in
  let '(activities, calls1) :=
    gated_recommendations risk_level user_interests user_location in
  let action_items := action_items_for risk_level in
  let user_context :=
    build_user_context risk_score factors user_message user_interests
      user_location activities in
  let llm_message :=
    match generate_content user_context with
    | Ok text => text
    | Err _ => generate_empathetic_message risk_level risk_score
    end in
  let calls2 := [CallGenerate user_context] in
  let '(intervention_id, calls3) :=
    match db_session, user_id with
    | true, Some uid =>
        if str_truthy user_id then
          match store_intervention uid risk_score llm_message (hd_error activities) with
          | Ok id => (Some id, [CallStore uid risk_score llm_message])
          | Err _ => (None, [CallStore uid risk_score llm_message])
          end
        else (None, [])
    | _, _ => (None, [])
    end in
  ({| risk_level := risk_level; risk_score := risk_score; message := llm_message;
      activities := activities; action_items := action_items;
      intervention_id := intervention_id |}, calls1 ++ calls2 ++ calls3).

Definition generate_intervention_strategy (ra : Assessment)
    (user_interests : option (list string)) (user_location : option string)
    : Payload Activity * list Call :=
  let risk_level := assessment_level ra in
  let risk_score := assessment_score ra in
  let message := generate_empathetic_message risk_level risk_score in
  let '(activities, calls) :=
    gated_recommendations risk_level user_interests user_location in
  let action_items := action_items_for risk_level in
  ({| risk_level := risk_level; risk_score := risk_score; message := message;
      activities := activities; action_items := action_items;
      intervention_id := None |}, calls).

End Collaborators.

End InterventionAgent.

(** ** Detection agent *)

Module DetectionAgent.

(** Neutral metrics used when a source has no token or its analysis raises. *)
Definition spotify_defaults : SpotifyMetrics :=
  {| baseline_listening_hours := Some 90; current_listening_hours := Some 90;
     late_night_percentage := Some 0; baseline_valence := Some (1 # 2);
     current_valence := Some (1 # 2); repeat_listening_percentage := Some 0 |}.

Definition calendar_defaults : CalendarMetrics :=
  {| baseline_social_events := Some 8; current_social_events := Some 8;
     declined_invitation_rate := Some 0; declined_invitations_count := Some 0;
     baseline_unique_contacts := Some 5; current_unique_contacts := Some 5 |}.

Record Detection : Type := {
  risk_assessment : RiskResult;
  spotify_metrics : SpotifyMetrics;
  calendar_metrics : CalendarMetrics
}.

Section Analyzers.

(** The tool calls of the token branch that build the metrics dict;
    [Err] is an exception caught by the [except] clause. *)
Variable analyze_spotify : string -> option BaselineData -> result SpotifyMetrics.
Variable analyze_calendar : string -> option BaselineData -> result CalendarMetrics.

Definition run_detection (user_id : string) (calendar_token spotify_token : option string)
    (baseline_data : option BaselineData) : result Detection :=
  let spotify_metrics :=
    match spotify_token with
    | Some tok =>
        if InterventionAgent.str_truthy spotify_token then
          match analyze_spotify tok baseline_data with
          | Ok m => m
          | Err _ => spotify_defaults
          end
        else spotify_defaults
    | None => spotify_defaults
    end in
  let calendar_metrics :=
    match calendar_token with
    | Some tok =>
        if InterventionAgent.str_truthy calendar_token then
          match analyze_calendar tok baseline_data with
          | Ok m => m
          | Err _ => calendar_defaults
          end
        else calendar_defaults
    | None => calendar_defaults
    end in
  match calculate_risk spotify_metrics calendar_metrics baseline_data with
  | Ok r => Ok {| risk_assessment := r; spotify_metrics := spotify_metrics;
                  calendar_metrics := calendar_metrics |}
  | Err e => Err e
  end.

End Analyzers.

End DetectionAgent.

Import InterventionAgent.
Import DetectionAgent.

(** ** Glue and reference definitions *)

(** The ["factors"] dict of a detection result, as the intervention agent
    receives it. *)
Definition factors_dict (f : Factors) : list (string * PyVal) :=
  [("spotify_score", PNum f.(spotify_score)); ("calendar_score", PNum f.(calendar_score));
   ("baseline_score", PNum f.(baseline_score)); ("total_score", PNum f.(total_score))].

(** [detection_result["risk_assessment"]] handed to [run_intervention]. *)
Definition assessment_of_risk (r : RiskResult) : Assessment :=
  {| a_level := Some r.(level); a_score := Some r.(score);
     a_factors := Some (factors_dict r.(factors)) |}.

Definition is_crisis_prompt (p : Prompt) : bool :=
  match p with
  | CrisisPrompt _ _ _ => true
  | InterventionPrompt _ _ _ _ _ _ _ _ => false
  end.

Definition recommend_called (calls : list Call) : bool :=
  existsb (fun c => match c with CallRecommend _ _ _ _ => true | _ => false end) calls.

Definition not_generate (c : Call) : bool :=
  match c with CallGenerate _ => false | _ => true end.

(** Reference for the explanation generator, following the spec's list of
    seven candidate statements, each with its trigger, in order. *)
Definition explanation_candidates (sm : SpotifyMetrics) (cm : CalendarMetrics)
    : list (bool * Explanation) :=
  let bh := get sm.(baseline_listening_hours) 15 in
  let ch := get sm.(current_listening_hours) 15 in
  let ln := get sm.(late_night_percentage) 0 in
  let bv := get sm.(baseline_valence) (1 # 2) in
  let cv := get sm.(current_valence) (1 # 2) in
  let rp := get sm.(repeat_listening_percentage) 0 in
  let be := get cm.(baseline_social_events) 8 in
  let ce := get cm.(current_social_events) 8 in
  let di := get cm.(declined_invitations_count) 0 in
  let bc := get cm.(baseline_unique_contacts) 5 in
  let cc := get cm.(current_unique_contacts) 5 in
  [(py_lt (bh * (15 # 10)) ch, ListeningIncreased bh ch);
   (py_lt 40 ln, LateNightListening ln);
   (py_lt (2 # 10) (bv - cv), MoodShift bv cv);
   (py_lt 30 rp, FrequentReplay rp);
   (py_lt ce be, SocialEventsDeclined (((be - ce) / be) * 100) be ce);
   (py_lt 0 di, DeclinedInvitations di);
   (py_lt cc (bc * (7 # 10)), ReducedContacts bc cc)].

Definition explanation_reference (sm : SpotifyMetrics) (cm : CalendarMetrics)
    : list Explanation :=
  match map snd (filter fst (explanation_candidates sm cm)) with
  | [] => [NoSignificantPatterns]
  | fired => fired
  end.

(** ** Concrete inputs *)

(** Declined-invitation rate 50 and contacts 2 -> 1 give a calendar
    subscore of 50; with a historical risk of 5 the composite is 25.5. *)
Definition gap_calendar : CalendarMetrics :=
  {| baseline_social_events := None; current_social_events := None;
     declined_invitation_rate := Some 50; declined_invitations_count := None;
     baseline_unique_contacts := Some 2; current_unique_contacts := Some 1 |}.

Definition gap_baseline : option BaselineData :=
  Some {| historical_risk := Some 5; baseline_other_keys := false |}.

(** Zero baseline social events and a negative current count. *)
Definition zero_baseline_calendar : CalendarMetrics :=
  {| baseline_social_events := Some 0; current_social_events := Some (-1);
     declined_invitation_rate := None; declined_invitations_count := None;
     baseline_unique_contacts := None; current_unique_contacts := None |}.

(** The severe-isolation scenario of the spec. *)
Definition severe_spotify : SpotifyMetrics :=
  {| baseline_listening_hours := Some 15; current_listening_hours := Some 45;
     late_night_percentage := Some 85; baseline_valence := Some (70 # 100);
     current_valence := Some (25 # 100); repeat_listening_percentage := Some 65 |}.

Definition severe_calendar : CalendarMetrics :=
  {| baseline_social_events := Some 8; current_social_events := Some 0;
     declined_invitation_rate := Some 100; declined_invitations_count := None;
     baseline_unique_contacts := Some 5; current_unique_contacts := Some 0 |}.

Definition negative_late_night : SpotifyMetrics :=
  {| baseline_listening_hours := None; current_listening_hours := None;
     late_night_percentage := Some (-100); baseline_valence := None;
     current_valence := None; repeat_listening_percentage := None |}.

Definition more_events_than_baseline : CalendarMetrics :=
  {| baseline_social_events := Some 8; current_social_events := Some 20;
     declined_invitation_rate := None; declined_invitations_count := None;
     baseline_unique_contacts := None; current_unique_contacts := None |}.


(** ** Python string primitives

    A Rocq [string] is read as a Python [str] whose code points are below
    256 (ASCII and Latin-1). *)

Module PyStr.

(** [str.lower()] on one code point: A-Z and the Latin-1 capitals
    (192-222 except the multiplication sign 215) move up by 32. *)
Definition lower_char (c : ascii) : ascii :=
  let n := nat_of_ascii c in
  if (Nat.leb 65 n && Nat.leb n 90)
     || (Nat.leb 192 n && Nat.leb n 222 && negb (Nat.eqb n 215))
  then ascii_of_nat (n + 32) else c.

Fixpoint lower (s : string) : string :=
  match s with
  | EmptyString => EmptyString
  | String c rest => String (lower_char c) (lower rest)
  end.

(** [str.isprintable()] below 256. *)
Definition printable (n : nat) : bool :=
  negb (Nat.ltb n 32 || (Nat.leb 127 n && Nat.leb n 160) || Nat.eqb n 173).

Definition backslash : ascii := ascii_of_nat 92.
Definition single_quote : ascii := ascii_of_nat 39.
Definition double_quote : ascii := ascii_of_nat 34.

Definition hex_digit (n : nat) : ascii :=
  ascii_of_nat (if Nat.ltb n 10 then 48 + n else 87 + n)%nat.

(** One code point inside [repr(s)] quoted with [q]. *)
Definition escape_char (q c : ascii) : string :=
  let n := nat_of_ascii c in
  if Nat.eqb n 92 then String backslash (String backslash EmptyString)
  else if Ascii.eqb c q then String backslash (String q EmptyString)
  else if Nat.eqb n 9 then String backslash "t"
  else if Nat.eqb n 10 then String backslash "n"
  else if Nat.eqb n 13 then String backslash "r"
  else if printable n then String c EmptyString
  else String backslash (String "x"
         (String (hex_digit (Nat.div n 16)) (String (hex_digit (Nat.modulo n 16)) EmptyString))).

Fixpoint escape (q : ascii) (s : string) : string :=
  match s with
  | EmptyString => EmptyString
  | String c rest => escape_char q c ++ escape q rest
  end.

(** [repr(s)]: single quotes unless [s] holds a single quote and no
    double quote. *)
Definition repr_str (s : string) : string :=
  let q :=
    if contains (String single_quote EmptyString) s
       && negb (contains (String double_quote EmptyString) s)
    then double_quote else single_quote in
  String q (escape q s ++ String q EmptyString).

(** [str(l)] for a list of strings. *)
Definition repr_str_list (l : list string) : string :=
  "[" ++ String.concat ", " (map repr_str l) ++ "]".

(** [l[:limit]]. *)
Definition slice_to {A : Type} (l : list A) (limit : Z) : list A :=
  if (0 <=? limit)%Z then firstn (Z.to_nat limit) l
  else firstn (length l - Z.to_nat (- limit)) l.

(** [int(x)]: truncation toward zero. *)
Definition py_int (x : Q) : Z := Z.quot (Qnum x) (Zpos (Qden x)).

End PyStr.

Import PyStr.

(** A subsequence: what a loop appending some of the items of a list, in
    order, builds. *)
Inductive subseq {A : Type} : list A -> list A -> Prop :=
| subseq_nil : subseq [] []
| subseq_skip x l1 l2 : subseq l1 l2 -> subseq l1 (x :: l2)
| subseq_take x l1 l2 : subseq l1 l2 -> subseq (x :: l1) (x :: l2).

(** A list filter whose predicate may raise ([None]). *)
Fixpoint filter_opt {A : Type} (p : A -> option bool) (l : list A) : option (list A) :=
  match l with
  | [] => Some []
  | x :: rest =>
      match p x with
      | None => None
      | Some b =>
          match filter_opt p rest with
          | None => None
          | Some r => Some (if b then x :: r else r)
          end
      end
  end.

(** ** Python values with nested dicts *)

#[warnings="-register-all"]
Inductive pyobj : Type :=
| ONum (q : Q)
| OStr (s : string)
| OBool (b : bool)
| ONone
| OList (l : list pyobj)
| ODict (d : list (string * pyobj)).

Definition obj_of_opt_str (o : option string) : pyobj :=
  match o with Some s => OStr s | None => ONone end.

Definition obj_of_opt_num (o : option Q) : pyobj :=
  match o with Some q => ONum q | None => ONone end.

(** [d.get(key, default)] on a dict value; [None] is the [AttributeError]
    of calling [.get] on something that is not a dict. *)
Definition obj_get (o : pyobj) (key : string) (default : pyobj) : option pyobj :=
  match o with
  | ODict d => Some (match lookup key d with Some v => v | None => default end)
  | _ => None
  end.

(** [x * 30]; [None] is a [TypeError]. *)
Definition obj_mul30 (o : pyobj) : option pyobj :=
  match o with
  | ONum q => Some (ONum (q * 30))
  | OBool b => Some (ONum (if b then 30 else 0))
  | OStr s => Some (OStr (String.concat "" (repeat s 30)))
  | OList l => Some (OList (concat (repeat l 30)))
  | ONone | ODict _ => None
  end.

(** [round(x, 3)]. *)
Definition py_round3 (x : Q) : Q := inject_Z (py_round (x * 1000)) / 1000.

(** ** core/utils.py *)

Module Utils.

(** [settings.risk_score_*_threshold] of [core/config.py]. *)
Definition risk_score_low_threshold : Z := 25.
Definition risk_score_moderate_threshold : Z := 50.
Definition risk_score_elevated_threshold : Z := 75.

Definition calculate_risk_level (score : Z) : string :=
  if (score <? risk_score_low_threshold)%Z then "low"
  else if (score <? risk_score_moderate_threshold)%Z then "moderate"
  else if (score <? risk_score_elevated_threshold)%Z then "elevated"
  else if (score <? 90)%Z then "high"
  else "critical".

End Utils.

(** ** tools/event_matching_tool.py *)

Module EventMatching.

(** An event dict. *)
Definition event : Type := list (string * PyVal).

(** [e.get(key, default)]. *)
Definition get_val (e : event) (key : string) (default : PyVal) : PyVal :=
  match lookup key e with Some v => v | None => default end.

(** [v < bound]: a [TypeError] ([None]) unless [v] is a number. *)
Definition lt_num (v : PyVal) (bound : Q) : option bool :=
  match v with
  | PNum q => Some (py_lt q bound)
  | _ => None
  end.

(** [e.get("rsvp_count", 0) < bound or e.get("capacity", 0) < bound] *)
Definition size_ok (bound : Q) (e : event) : option bool :=
  match lt_num (get_val e "rsvp_count" (PNum 0)) bound with
  | Some true => Some true
  | Some false => lt_num (get_val e "capacity" (PNum 0)) bound
  | None => None
  end.

Definition filter_by_anxiety_level (events : list event) (anxiety_level : string)
    : option (list event) :=
  if String.eqb anxiety_level "low" then Some events
  else if String.eqb anxiety_level "medium" then filter_opt (size_ok 30) events
  else if String.eqb anxiety_level "high" then filter_opt (size_ok 15) events
  else Some events.

(** The values read off one item of the Meetup response, and the dict
    [search_meetup_events] builds from them. *)
Record MeetupFields : Type := {
  mf_id : PyVal; mf_name : PyVal; mf_description : PyVal; mf_time : PyVal;
  mf_venue : PyVal; mf_group : PyVal; mf_rsvp_count : PyVal; mf_link : PyVal
}.

Definition meetup_event (f : MeetupFields) : event :=
  [("id", f.(mf_id)); ("name", f.(mf_name)); ("description", f.(mf_description));
   ("time", f.(mf_time)); ("venue", f.(mf_venue)); ("group", f.(mf_group));
   ("rsvp_count", f.(mf_rsvp_count)); ("link", f.(mf_link));
   ("source", PStr "meetup")].

(** The same for Eventbrite. *)
Record EventbriteFields : Type := {
  ef_id : PyVal; ef_name : PyVal; ef_description : PyVal; ef_start : PyVal;
  ef_end : PyVal; ef_venue : PyVal; ef_capacity : PyVal; ef_link : PyVal
}.

Definition eventbrite_event (f : EventbriteFields) : event :=
  [("id", f.(ef_id)); ("name", f.(ef_name)); ("description", f.(ef_description));
   ("start", f.(ef_start)); ("end", f.(ef_end)); ("venue", f.(ef_venue));
   ("capacity", f.(ef_capacity)); ("link", f.(ef_link));
   ("source", PStr "eventbrite")].

Section Sources.

(** [str(x)] of a number. *)
Variable str_num : Q -> string.

(** The items of the Meetup and Eventbrite responses for a location;
    [[]] without an API key or on an exception. *)
Variable meetup_items : string -> list MeetupFields.
Variable eventbrite_items : string -> list EventbriteFields.

Definition py_str (v : PyVal) : string :=
  match v with
  | PStr s => s
  | PNone => "None"
  | PNum q => str_num q
  | PStrList l => repr_str_list l
  end.

Definition event_text (e : event) : string :=
  lower (py_str (get_val e "name" (PStr "")) ++ " "
         ++ py_str (get_val e "description" (PStr "")) ++ " "
         ++ py_str (get_val e "group" (PStr ""))).

(** The inner loop: [for interest in interests: if interest.lower() in
    event_text: matched_events.append(event); break]. *)
Fixpoint interest_hit (interests : list string) (text : string) : bool :=
  match interests with
  | [] => false
  | i :: rest => if contains (lower i) text then true else interest_hit rest text
  end.

Fixpoint match_loop (interests : list string) (events : list event) : list event :=
  match events with
  | [] => []
  | e :: rest =>
      if interest_hit interests (event_text e) then e :: match_loop interests rest
      else match_loop interests rest
  end.

Definition match_interests (events : list event) (interests : list string) : list event :=
  match interests with
  | [] => events
  | _ => match_loop interests events
  end.

Definition search_meetup_events (location : string) : list event :=
  map meetup_event (meetup_items location).

Definition search_eventbrite_events (location : string) : list event :=
  map eventbrite_event (eventbrite_items location).

Definition search_tamu_events : list event := [].

Definition get_all_events (location : string) : list event :=
  search_meetup_events location ++ search_eventbrite_events location ++ search_tamu_events.

(** [None] is the [TypeError] of a size comparison. *)
Definition recommend_events (location anxiety_level : string)
    (interests : option (list string)) (limit : Z) : option (list event) :=
  match filter_by_anxiety_level (get_all_events location) anxiety_level with
  | None => None
  | Some filtered_events =>
      let filtered_events :=
        if list_truthy interests
        then match_interests filtered_events
               (match interests with Some l => l | None => [] end)
        else filtered_events in
      Some (slice_to filtered_events limit)
  end.

End Sources.

End EventMatching.

(** ** tools/calendar_tool.py *)

Module CalendarTool.

(** An attendee entry: the truthiness of [attendee.get("self", False)],
    its ["email"], ["displayName"] and ["responseStatus"] ([None] when
    missing). *)
Record Attendee : Type := {
  at_self : bool;
  at_email : option string;
  at_display_name : option string;
  at_response_status : option string
}.

(** A calendar event: ["summary"] ([None] when missing), ["attendees"],
    the ["start"] dict and ["recurrence"]. *)
Record CalEvent : Type := {
  ev_summary : option string;
  ev_attendees : list Attendee;
  ev_start : list (string * string);
  ev_recurrence : list string
}.

Definition has_key {A : Type} (k : string) (d : list (string * A)) : bool :=
  existsb (fun kv => String.eqb k (fst kv)) d.

(** [len(social_events) / weeks if weeks > 0 else 0.0] *)
Definition calculate_social_frequency (n_social_events : nat) (days_back : Z) : Q :=
  let weeks := inject_Z days_back / 7 in
  if py_lt 0 weeks then inject_Z (Z.of_nat n_social_events) / weeks else 0.

Record DeclineAnalysis : Type := {
  baseline_frequency : Q;
  current_frequency : Q;
  decline_percentage : Q;
  is_declining : bool;
  period_days : Z
}.

(** [detect_social_decline], given the number of social events
    [get_social_events] returns. *)
Definition detect_social_decline (n_social_events : nat) (baseline_frequency : Q)
    (current_period_days : Z) : DeclineAnalysis :=
  let current_frequency := calculate_social_frequency n_social_events current_period_days in
  let decline_percentage :=
    if py_lt 0 baseline_frequency
    then ((baseline_frequency - current_frequency) / baseline_frequency) * 100
    else 0 in
  {| baseline_frequency := baseline_frequency; current_frequency := current_frequency;
     decline_percentage := decline_percentage;
     is_declining := py_lt 25 decline_percentage;
     period_days := current_period_days |}.

(** A declined event as recorded in [declined_events]. *)
Record DeclinedEvent : Type := {
  de_summary : string;
  de_start : option string;
  de_attendees_count : nat
}.

Definition declined_record (event : CalEvent) : DeclinedEvent :=
  {| de_summary := match event.(ev_summary) with Some s => s | None => "Untitled Event" end;
     de_start := lookup "dateTime" event.(ev_start);
     de_attendees_count := length event.(ev_attendees) |}.

(** The inner loop over the attendees of [event], threading
    [(total_invitations, declined_count, declined_events)]. *)
Definition declined_attendee_step (event : CalEvent)
    (acc : nat * nat * list DeclinedEvent) (attendee : Attendee)
    : nat * nat * list DeclinedEvent :=
  let '(total_invitations, declined_count, declined_events) := acc in
  if attendee.(at_self) then
    let total_invitations := S total_invitations in
    let response_status := attendee.(at_response_status) in
    if match response_status with Some s => String.eqb s "declined" | None => false end
    then (total_invitations, S declined_count, declined_events ++ [declined_record event])
    else (total_invitations, declined_count, declined_events)
  else acc.

Definition declined_event_step (acc : nat * nat * list DeclinedEvent) (event : CalEvent)
    : nat * nat * list DeclinedEvent :=
  fold_left (declined_attendee_step event) event.(ev_attendees) acc.

(** The dict returned by [get_declined_invitations]; the [except] branch
    has no ["is_concerning"] nor ["declined_events"] key. *)
Record DeclinedAnalysis : Type := {
  total_invitations : nat;
  declined_count : nat;
  decline_rate : Q;
  is_concerning : option bool;
  declined_events : option (list DeclinedEvent)
}.

(** [items] is [events_result.get("items", [])], [None] on [HttpError]. *)
Definition get_declined_invitations (items : option (list CalEvent)) : DeclinedAnalysis :=
  match items with
  | None =>
      {| total_invitations := 0; declined_count := 0; decline_rate := 0;
         is_concerning := None; declined_events := None |}
  | Some events =>
      let '(total_invitations, declined_count, declined_events) :=
        fold_left declined_event_step events (0%nat, 0%nat, []) in
      let decline_rate :=
        if Nat.ltb 0 total_invitations
        then (inject_Z (Z.of_nat declined_count) / inject_Z (Z.of_nat total_invitations)) * 100
        else 0 in
      {| total_invitations := total_invitations; declined_count := declined_count;
         decline_rate := py_round2 decline_rate;
         is_concerning := Some (py_lt 40 decline_rate);
         declined_events := Some (firstn 5 declined_events) |}
  end.

(** An entry of [contact_frequency]. *)
Record Contact : Type := {
  c_name : option string;
  c_count : nat;
  c_email : string
}.

(** [if email not in contact_frequency: contact_frequency[email] = {...,
    "count": 0, ...}; contact_frequency[email]["count"] += 1], the dict
    kept in insertion order. *)
Fixpoint bump_contact (email : string) (name : option string) (freq : list Contact)
    : list Contact :=
  match freq with
  | [] => [{| c_name := name; c_count := 1; c_email := email |}]
  | c :: rest =>
      if String.eqb c.(c_email) email
      then {| c_name := c.(c_name); c_count := S c.(c_count); c_email := c.(c_email) |} :: rest
      else c :: bump_contact email name rest
  end.

Definition contact_attendee_step (freq : list Contact) (attendee : Attendee) : list Contact :=
  if negb attendee.(at_self) then
    let email := attendee.(at_email) in
    let name := match attendee.(at_display_name) with Some n => Some n | None => email end in
    if str_truthy email
    then bump_contact (match email with Some e => e | None => "" end) name freq
    else freq
  else freq.

Definition contact_event_step (freq : list Contact) (event : CalEvent) : list Contact :=
  if Nat.leb 2 (length event.(ev_attendees))
  then fold_left contact_attendee_step event.(ev_attendees) freq
  else freq.

Definition contact_frequency (events : list CalEvent) : list Contact :=
  fold_left contact_event_step events [].

(** [sorted(..., key=lambda x: x["count"], reverse=True)]: stable, so
    contacts with equal counts keep their order. *)
Fixpoint insert_by_count (c : Contact) (sorted : list Contact) : list Contact :=
  match sorted with
  | [] => [c]
  | h :: rest =>
      if Nat.ltb h.(c_count) c.(c_count) then c :: sorted
      else h :: insert_by_count c rest
  end.

Definition sort_by_count_desc (l : list Contact) : list Contact :=
  fold_left (fun acc c => insert_by_count c acc) l [].

Record ContactsAnalysis : Type := {
  total_unique_contacts : nat;
  top_contacts : list Contact;
  has_frequent_contacts : option bool
}.

Definition identify_recurring_contacts (items : option (list CalEvent)) : ContactsAnalysis :=
  match items with
  | None => {| total_unique_contacts := 0; top_contacts := []; has_frequent_contacts := None |}
  | Some events =>
      let freq := contact_frequency events in
      let top := firstn 10 (sort_by_count_desc freq) in
      {| total_unique_contacts := length freq; top_contacts := top;
         has_frequent_contacts :=
           Some (Nat.ltb 0 (length top)
                 && match top with c :: _ => Nat.leb 3 c.(c_count) | [] => false end) |}
  end.

Definition work_terms : list string :=
  ["standup"; "sync"; "meeting"; "status"; "review"; "scrum"].

Definition work_keywords : list string :=
  ["standup"; "1:1"; "sync"; "status"; "review"; "interview"].

(** The body of the loop of [filter_social_events]: [false] at each
    [continue]. *)
Definition keep_social_event (event : CalEvent) : bool :=
  let summary := lower (match event.(ev_summary) with Some s => s | None => "" end) in
  let attendees := event.(ev_attendees) in
  let start := event.(ev_start) in
  let recurrence := event.(ev_recurrence) in
  if Nat.ltb (length attendees) 2 then false
  else if has_key "date" start && negb (has_key "dateTime" start) then false
  else if (match recurrence with [] => false | _ => true end)
          && (let recurrence_str := lower (repr_str_list recurrence) in
              contains "freq=daily" recurrence_str || contains "freq=weekly" recurrence_str)
          && existsb (fun term => contains term summary) work_terms
  then false
  else if existsb (fun keyword => contains keyword summary) work_keywords then false
  else true.

Fixpoint filter_social_events (events : list CalEvent) : list CalEvent :=
  match events with
  | [] => []
  | event :: rest =>
      if keep_social_event event then event :: filter_social_events rest
      else filter_social_events rest
  end.

(** The result dicts as values, as [analyze_social_patterns] nests them. *)
Definition declined_obj (d : DeclinedAnalysis) : pyobj :=
  ODict ([("total_invitations", ONum (inject_Z (Z.of_nat d.(total_invitations))));
          ("declined_count", ONum (inject_Z (Z.of_nat d.(declined_count))));
          ("decline_rate", ONum d.(decline_rate))]
         ++ match d.(is_concerning), d.(declined_events) with
            | Some c, Some evs =>
                [("is_concerning", OBool c);
                 ("declined_events",
                   OList (map (fun e => ODict [("summary", OStr e.(de_summary));
                                               ("start", obj_of_opt_str e.(de_start));
                                               ("attendees_count",
                                                 ONum (inject_Z (Z.of_nat e.(de_attendees_count))))])
                              evs))]
            | _, _ => []
            end).

Definition contacts_obj (c : ContactsAnalysis) : pyobj :=
  ODict ([("total_unique_contacts", ONum (inject_Z (Z.of_nat c.(total_unique_contacts))));
          ("top_contacts",
            OList (map (fun k => ODict [("name", obj_of_opt_str k.(c_name));
                                        ("count", ONum (inject_Z (Z.of_nat k.(c_count))));
                                        ("email", OStr k.(c_email))])
                       c.(top_contacts)))]
         ++ match c.(has_frequent_contacts) with
            | Some b => [("has_frequent_contacts", OBool b)]
            | None => []
            end).

(** [analyze_social_patterns(days_back)]: [items] is its own fetch
    ([None] on [HttpError]); [get_declined_invitations] and
    [identify_recurring_contacts] fetch [items_declined] and
    [items_contacts]. *)
Definition analyze_social_patterns (days_back : Z)
    (items items_declined items_contacts : option (list CalEvent))
    : list (string * pyobj) :=
  match items with
  | None => []
  | Some all_events =>
      let social_events := filter_social_events all_events in
      let declined_analysis := get_declined_invitations items_declined in
      let friend_graph := identify_recurring_contacts items_contacts in
      let weeks := inject_Z days_back / 7 in
      let social_frequency :=
        if py_lt 0 weeks then inject_Z (Z.of_nat (length social_events)) / weeks else 0 in
      [("total_events", ONum (inject_Z (Z.of_nat (length all_events))));
       ("social_events", ONum (inject_Z (Z.of_nat (length social_events))));
       ("social_frequency", ONum (py_round2 social_frequency));
       ("declined_analysis", declined_obj declined_analysis);
       ("friend_graph", contacts_obj friend_graph);
       ("period_days", ONum (inject_Z days_back))]
  end.

End CalendarTool.

(** ** tools/spotify_tool.py *)

Module SpotifyTool.

(** A track as [get_recent_tracks] builds it; [played_at] is [None] when
    the item has none. *)
Record Track : Type := {
  track_id : option string;
  name : option string;
  artist : option string;
  played_at : option string;
  duration_ms : option Q
}.

Section Clock.

(** [datetime.fromisoformat(played_at.replace("Z", "+00:00")).hour] and
    the comparison of that datetime with [utcnow() - timedelta(days)];
    [None] is the [ValueError] of a malformed timestamp. *)
Variable parse_hour : string -> option Z.
Variable after_cutoff : Z -> string -> option bool.

(** [get_audio_features(track_ids)]: the non-[None] feature dicts of the
    batches, restricted to their numeric entries; [[]] on an exception. *)
Variable get_audio_features : list string -> list (list (string * Q)).

(** [[t for t in tracks if datetime.fromisoformat(t["played_at"]...) > cutoff]] *)
Definition recent_tracks (days_back : Z) (tracks : list Track) : option (list Track) :=
  filter_opt (fun t => match t.(played_at) with
                       | Some p => after_cutoff days_back p
                       | None => None
                       end) tracks.

Definition mood_keys : list string :=
  ["valence"; "energy"; "danceability"; "tempo"; "acousticness"].

(** [calculate_mood_metrics(days_back)] on the tracks its
    [get_recent_tracks] call returned. *)
Definition calculate_mood_metrics (days_back : Z) (tracks : list Track)
    : option (list (string * Q)) :=
  match recent_tracks days_back tracks with
  | None => None
  | Some [] => Some []
  | Some recent =>
      let track_ids :=
        flat_map (fun t => if str_truthy t.(track_id)
                           then match t.(track_id) with Some i => [i] | None => [] end
                           else []) recent in
      match get_audio_features track_ids with
      | [] => Some []
      | audio_features =>
          let sums :=
            map (fun key =>
                   (key, fold_left (fun acc feature => acc + get (lookup key feature) 0)
                           audio_features 0)) mood_keys in
          let count := inject_Z (Z.of_nat (length audio_features)) in
          let averaged :=
            map (fun kv => (fst kv, if py_lt 0 count then py_round3 (snd kv / count) else 0))
              sums in
          Some (averaged ++ [("track_count", count)])
      end
  end.

Record MoodShift : Type := {
  shift_detected : bool;
  reason : option string;
  baseline_valence_m : option Q;
  current_valence_m : option Q;
  valence_change : option Q;
  baseline_energy : option Q;
  current_energy : option Q;
  energy_change : option Q;
  ms_is_concerning : option bool
}.

Definition detect_mood_shift (baseline_metrics : list (string * Q))
    (current_metrics : option (list (string * Q))) : option MoodShift :=
  match current_metrics with
  | None => None
  | Some current_metrics =>
      match current_metrics, baseline_metrics with
      | [], _ | _, [] =>
          Some {| shift_detected := false; reason := Some "Insufficient data";
                  baseline_valence_m := None; current_valence_m := None;
                  valence_change := None; baseline_energy := None;
                  current_energy := None; energy_change := None;
                  ms_is_concerning := None |}
      | _, _ =>
          let valence_change :=
            get (lookup "valence" baseline_metrics) (1 # 2)
            - get (lookup "valence" current_metrics) (1 # 2) in
          let energy_change :=
            get (lookup "energy" baseline_metrics) (1 # 2)
            - get (lookup "energy" current_metrics) (1 # 2) in
          let significant_valence_drop := py_lt (2 # 10) valence_change in
          let significant_energy_drop := py_lt (2 # 10) energy_change in
          Some {| shift_detected := significant_valence_drop || significant_energy_drop;
                  reason := None;
                  baseline_valence_m := Some (get (lookup "valence" baseline_metrics) 0);
                  current_valence_m := Some (get (lookup "valence" current_metrics) 0);
                  valence_change := Some (py_round3 valence_change);
                  baseline_energy := Some (get (lookup "energy" baseline_metrics) 0);
                  current_energy := Some (get (lookup "energy" current_metrics) 0);
                  energy_change := Some (py_round3 energy_change);
                  ms_is_concerning :=
                    Some (significant_valence_drop && significant_energy_drop) |}
      end
  end.

(** The loop counting plays between 23:00 and 04:00. *)
Fixpoint count_late_night (tracks : list Track) : option nat :=
  match tracks with
  | [] => Some 0%nat
  | t :: rest =>
      match t.(played_at) with
      | None => None
      | Some p =>
          match parse_hour p with
          | None => None
          | Some hour =>
              match count_late_night rest with
              | None => None
              | Some n =>
                  Some (if (23 <=? hour)%Z || (hour <? 4)%Z then S n else n)
              end
          end
      end
  end.

Record LateNight : Type := {
  ln_late_night_count : nat;
  ln_total_count : nat;
  ln_late_night_percentage : Q;
  ln_is_concerning : bool
}.

Definition detect_late_night_listening (tracks : list Track) : option LateNight :=
  match count_late_night tracks with
  | None => None
  | Some late_night_count =>
      let total_count := length tracks in
      let late_night_percentage :=
        if Nat.ltb 0 total_count
        then (inject_Z (Z.of_nat late_night_count) / inject_Z (Z.of_nat total_count)) * 100
        else 0 in
      Some {| ln_late_night_count := late_night_count; ln_total_count := total_count;
              ln_late_night_percentage := py_round2 late_night_percentage;
              ln_is_concerning := py_lt 40 late_night_percentage |}
  end.

(** An entry of [track_counts]. *)
Record TrackCount : Type := {
  tc_id : string;
  tc_count : nat;
  tc_name : option string;
  tc_artist : option string
}.

Fixpoint bump_track (t : Track) (id : string) (counts : list TrackCount) : list TrackCount :=
  match counts with
  | [] => [{| tc_id := id; tc_count := 1; tc_name := t.(name); tc_artist := t.(artist) |}]
  | c :: rest =>
      if String.eqb c.(tc_id) id
      then {| tc_id := c.(tc_id); tc_count := S c.(tc_count); tc_name := c.(tc_name);
              tc_artist := c.(tc_artist) |} :: rest
      else c :: bump_track t id rest
  end.

Definition count_tracks (recent : list Track) : list TrackCount :=
  fold_left (fun counts t =>
               if str_truthy t.(track_id)
               then bump_track t (match t.(track_id) with Some i => i | None => "" end) counts
               else counts) recent [].

(** [max(values, key=count)]: the first entry of largest count. *)
Fixpoint max_by_count (best : TrackCount) (rest : list TrackCount) : TrackCount :=
  match rest with
  | [] => best
  | c :: rest => max_by_count (if Nat.ltb best.(tc_count) c.(tc_count) then c else best) rest
  end.

Record RepeatAnalysis : Type := {
  total_plays : option nat;
  unique_tracks : option nat;
  repeat_percentage : Q;
  most_repeated : option TrackCount;
  rl_is_concerning : option bool
}.

Definition detect_repeat_listening (days_back : Z) (tracks : list Track)
    : option RepeatAnalysis :=
  match recent_tracks days_back tracks with
  | None => None
  | Some [] =>
      Some {| total_plays := None; unique_tracks := None; repeat_percentage := 0;
              most_repeated := None; rl_is_concerning := None |}
  | Some recent =>
      let track_counts := count_tracks recent in
      let most_repeated :=
        match track_counts with
        | [] => None
        | c :: rest => Some (max_by_count c rest)
        end in
      let total_plays := length recent in
      let unique_tracks := length track_counts in
      let repeat_percentage :=
        if Nat.ltb 0 total_plays
        then ((inject_Z (Z.of_nat total_plays) - inject_Z (Z.of_nat unique_tracks))
              / inject_Z (Z.of_nat total_plays)) * 100
        else 0 in
      Some {| total_plays := Some total_plays; unique_tracks := Some unique_tracks;
              repeat_percentage := py_round2 repeat_percentage;
              most_repeated := most_repeated;
              rl_is_concerning := Some (py_lt 30 repeat_percentage) |}
  end.

(** [artists.add(artist)] on a set kept as a duplicate-free list. *)
Definition set_add (x : string) (s : list string) : list string :=
  if existsb (String.eqb x) s then s else s ++ [x].

Record Diversity : Type := {
  total_tracks : option nat;
  unique_artists : option nat;
  diversity_score : Q;
  is_diverse : option bool
}.

Definition calculate_genre_diversity (days_back : Z) (tracks : list Track)
    : option Diversity :=
  match recent_tracks days_back tracks with
  | None => None
  | Some [] =>
      Some {| total_tracks := None; unique_artists := None; diversity_score := 0;
              is_diverse := None |}
  | Some recent =>
      let artists :=
        fold_left (fun s t =>
                     if str_truthy t.(artist)
                     then set_add (match t.(artist) with Some a => a | None => "" end) s
                     else s) recent [] in
      let n := inject_Z (Z.of_nat (length recent)) in
      let diversity_score := inject_Z (Z.of_nat (length artists)) / n in
      Some {| total_tracks := Some (length recent); unique_artists := Some (length artists);
              diversity_score := py_round3 diversity_score;
              is_diverse := Some (py_lt (1 # 2) diversity_score) |}
  end.

(** The result dicts as values of [calculate_enhanced_mood_metrics]. *)
Definition repeat_obj (r : RepeatAnalysis) : pyobj :=
  match r.(total_plays), r.(unique_tracks), r.(rl_is_concerning) with
  | Some tp, Some ut, Some c =>
      ODict [("total_plays", ONum (inject_Z (Z.of_nat tp)));
             ("unique_tracks", ONum (inject_Z (Z.of_nat ut)));
             ("repeat_percentage", ONum r.(repeat_percentage));
             ("most_repeated",
               match r.(most_repeated) with
               | Some m => ODict [("count", ONum (inject_Z (Z.of_nat m.(tc_count))));
                                  ("name", obj_of_opt_str m.(tc_name));
                                  ("artist", obj_of_opt_str m.(tc_artist))]
               | None => ONone
               end);
             ("is_concerning", OBool c)]
  | _, _, _ =>
      ODict [("repeat_percentage", ONum r.(repeat_percentage)); ("most_repeated", ONone)]
  end.

Definition diversity_obj (d : Diversity) : pyobj :=
  match d.(total_tracks), d.(unique_artists), d.(is_diverse) with
  | Some n_tracks, Some ua, Some b =>
      ODict [("total_tracks", ONum (inject_Z (Z.of_nat n_tracks)));
             ("unique_artists", ONum (inject_Z (Z.of_nat ua)));
             ("diversity_score", ONum d.(diversity_score)); ("is_diverse", OBool b)]
  | _, _, _ => ODict [("diversity_score", ONum d.(diversity_score))]
  end.

Definition late_night_obj (l : LateNight) : pyobj :=
  ODict [("late_night_count", ONum (inject_Z (Z.of_nat l.(ln_late_night_count))));
         ("total_count", ONum (inject_Z (Z.of_nat l.(ln_total_count))));
         ("late_night_percentage", ONum l.(ln_late_night_percentage));
         ("is_concerning", OBool l.(ln_is_concerning))].

(** [calculate_enhanced_mood_metrics(days_back)]; each of its four
    analyses fetches its own recent tracks. *)
Definition calculate_enhanced_mood_metrics (days_back : Z)
    (tracks_mood tracks_repeat tracks_diversity tracks_late : list Track)
    : option (list (string * pyobj)) :=
  match calculate_mood_metrics days_back tracks_mood with
  | None => None
  | Some base_metrics =>
      match detect_repeat_listening days_back tracks_repeat with
      | None => None
      | Some repeat_analysis =>
          match calculate_genre_diversity days_back tracks_diversity with
          | None => None
          | Some diversity_analysis =>
              match detect_late_night_listening tracks_late with
              | None => None
              | Some late_night_analysis =>
                  Some (map (fun kv => (fst kv, ONum (snd kv))) base_metrics
                        ++ [("repeat_listening", repeat_obj repeat_analysis);
                            ("genre_diversity", diversity_obj diversity_analysis);
                            ("late_night_listening", late_night_obj late_night_analysis)])
              end
          end
      end
  end.

End Clock.

End SpotifyTool.

(** ** agents/detection_agent.py: the per-source analyses and the metrics
    dicts of [run_detection] *)

Module DetectionSources.

Import SpotifyTool.

(** [len(x)]; [None] is a [TypeError]. *)
Definition obj_len (o : pyobj) : option nat :=
  match o with
  | OList l => Some (length l)
  | ODict d => Some (length d)
  | OStr s => Some (String.length s)
  | _ => None
  end.

Definition dict_get (d : list (string * pyobj)) (key : string) (default : pyobj) : pyobj :=
  match lookup key d with Some v => v | None => default end.

(** A metrics dict as [run_detection] builds it. *)
Definition spotify_metrics_obj (m : SpotifyMetrics) : list (string * pyobj) :=
  [("baseline_listening_hours", obj_of_opt_num m.(baseline_listening_hours));
   ("current_listening_hours", obj_of_opt_num m.(current_listening_hours));
   ("late_night_percentage", obj_of_opt_num m.(late_night_percentage));
   ("baseline_valence", obj_of_opt_num m.(baseline_valence));
   ("current_valence", obj_of_opt_num m.(current_valence));
   ("repeat_listening_percentage", obj_of_opt_num m.(repeat_listening_percentage))].

Definition calendar_metrics_obj (m : CalendarMetrics) : list (string * pyobj) :=
  [("baseline_social_events", obj_of_opt_num m.(baseline_social_events));
   ("current_social_events", obj_of_opt_num m.(current_social_events));
   ("declined_invitation_rate", obj_of_opt_num m.(declined_invitation_rate));
   ("declined_invitations_count", obj_of_opt_num m.(declined_invitations_count));
   ("baseline_unique_contacts", obj_of_opt_num m.(baseline_unique_contacts));
   ("current_unique_contacts", obj_of_opt_num m.(current_unique_contacts))].

(** Python's binding of keyword arguments to a method without [**kwargs]:
    every keyword must name a parameter, otherwise [TypeError]. *)
Definition accepts_keywords (params kwargs : list string) : bool :=
  forallb (fun k => existsb (String.eqb k) params) kwargs.

(** The parameters of [CalendarTool.analyze_social_patterns] after
    [self]. *)
Definition analyze_social_patterns_params : list string := ["days_back"].

(** [baseline_data.get(key, default) if baseline_data else default] *)
Definition baseline_get (baseline_data : option (list (string * pyobj))) (key : string)
    (default : pyobj) : pyobj :=
  match baseline_data with
  | Some (_ :: _ as d) => dict_get d key default
  | _ => default
  end.

(** The calendar half of [run_detection]: [fetch i] is the response of the
    [i]-th events request of the [try] block ([None] on [HttpError]). *)
Definition calendar_branch (calendar_token : option string)
    (baseline_data : option (list (string * pyobj)))
    (fetch : nat -> option (list CalendarTool.CalEvent)) : list (string * pyobj) :=
  if str_truthy calendar_token then
    let baseline_frequency := baseline_get baseline_data "social_event_frequency" (ONum 8) in
    if accepts_keywords analyze_social_patterns_params ["days_back"; "baseline_frequency"] then
      let social_patterns :=
        CalendarTool.analyze_social_patterns 30 (fetch 0%nat) (fetch 1%nat) (fetch 2%nat) in
      let declined_data :=
        CalendarTool.declined_obj (CalendarTool.get_declined_invitations (fetch 3%nat)) in
      let contacts_data :=
        CalendarTool.contacts_obj (CalendarTool.identify_recurring_contacts (fetch 4%nat)) in
      let baseline_events := baseline_get baseline_data "social_event_frequency" (ONum 8) in
      match obj_get declined_data "decline_rate" (ONum 0),
            obj_get declined_data "declined_count" (ONum 0),
            option_map obj_len (obj_get contacts_data "recurring_contacts" (OList [])) with
      | Some rate, Some count, Some (Some n) =>
          [("baseline_social_events", baseline_events);
           ("current_social_events", dict_get social_patterns "social_event_count" (ONum 8));
           ("declined_invitation_rate", rate);
           ("declined_invitations_count", count);
           ("baseline_unique_contacts", ONum 5);
           ("current_unique_contacts", ONum (inject_Z (Z.of_nat n)))]
      | _, _, _ => calendar_metrics_obj calendar_defaults
      end
    else calendar_metrics_obj calendar_defaults
  else calendar_metrics_obj calendar_defaults.

Section SpotifyClock.

Variable parse_hour : string -> option Z.
Variable after_cutoff : Z -> string -> option bool.
Variable get_audio_features : list string -> list (list (string * Q)).

(** The Spotify half of [run_detection]: [fetch i] is the response of the
    [i]-th recently-played request ([get_recent_tracks] catches its own
    exceptions; the result of the first request is unused). *)
Definition spotify_branch (spotify_token : option string)
    (baseline_data : option (list (string * pyobj)))
    (fetch : nat -> list Track) : list (string * pyobj) :=
  if str_truthy spotify_token then
    match calculate_enhanced_mood_metrics parse_hour after_cutoff get_audio_features 30
            (fetch 1%nat) (fetch 2%nat) (fetch 3%nat) (fetch 4%nat) with
    | None => spotify_metrics_obj spotify_defaults
    | Some mood_data =>
        match detect_late_night_listening parse_hour (fetch 5%nat) with
        | None => spotify_metrics_obj spotify_defaults
        | Some late_night_data =>
            let baseline_valence :=
              match baseline_data with
              | Some (_ :: _ as d) =>
                  match obj_get (ODict d) "mood_baseline" (ODict []) with
                  | Some mb => obj_get mb "valence" (ONum (1 # 2))
                  | None => None
                  end
              | _ => Some (ONum (1 # 2))
              end in
            let baseline_listening_hours :=
              match baseline_data with
              | Some (_ :: _ as d) =>
                  match obj_get (ODict d) "music_patterns" (ODict []) with
                  | Some mp =>
                      match obj_get mp "daily_hours" (ONum 3) with
                      | Some h => obj_mul30 h
                      | None => None
                      end
                  | None => None
                  end
              | _ => Some (ONum 90)
              end in
            match baseline_valence, baseline_listening_hours with
            | Some bv, Some bh =>
                [("baseline_listening_hours", bh);
                 ("current_listening_hours", dict_get mood_data "total_listening_hours" (ONum 90));
                 ("late_night_percentage", ONum late_night_data.(ln_late_night_percentage));
                 ("baseline_valence", bv);
                 ("current_valence", dict_get mood_data "valence" (ONum (1 # 2)));
                 ("repeat_listening_percentage", dict_get mood_data "repeat_percentage" (ONum 0))]
            | _, _ => spotify_metrics_obj spotify_defaults
            end
        end
    end
  else spotify_metrics_obj spotify_defaults.

Record SocialContribution : Type := {
  sc_available : bool;
  sc_current_frequency : option Q;
  sc_decline_percentage : option Q;
  sc_is_declining : option bool;
  sc_risk_contribution : Z
}.

(** [analyze_social_patterns(user_id, calendar_token, baseline_frequency)]:
    [social_events] is the number of events [get_social_events(14)]
    returns, [None] when it raises. *)
Definition analyze_social_patterns (calendar_token : option string)
    (baseline_frequency : Q) (social_events : option nat) : SocialContribution :=
  let unavailable :=
    {| sc_available := false; sc_current_frequency := None; sc_decline_percentage := None;
       sc_is_declining := None; sc_risk_contribution := 0 |} in
  if negb (str_truthy calendar_token) then unavailable
  else
    match social_events with
    | None => unavailable
    | Some n =>
        let decline_analysis := CalendarTool.detect_social_decline n baseline_frequency 14 in
        let decline_percentage := decline_analysis.(CalendarTool.decline_percentage) in
        let risk_contribution := Z.min 40 (py_int (decline_percentage * (8 # 10))) in
        {| sc_available := true;
           sc_current_frequency := Some decline_analysis.(CalendarTool.current_frequency);
           sc_decline_percentage := Some decline_percentage;
           sc_is_declining := Some decline_analysis.(CalendarTool.is_declining);
           sc_risk_contribution := risk_contribution |}
    end.

(** The points of [analyze_mood_patterns] before the final [min(35, .)]. *)
Definition mood_points (mood_shift : MoodShift) (late_night_analysis : LateNight) : Z :=
  let risk_contribution := 0%Z in
  let risk_contribution :=
    if mood_shift.(shift_detected)
    then (risk_contribution
          + Z.min 20 (py_int (Qabs (get mood_shift.(valence_change) 0) * 100)))%Z
    else risk_contribution in
  let risk_contribution :=
    if late_night_analysis.(ln_is_concerning)
    then (risk_contribution
          + Z.min 15 (py_int (late_night_analysis.(ln_late_night_percentage) * (3 # 10))))%Z
    else risk_contribution in
  risk_contribution.

Record MoodContribution : Type := {
  mc_available : bool;
  mc_mood_shift : option MoodShift;
  mc_late_night_analysis : option LateNight;
  mc_risk_contribution : Z
}.

(** [analyze_mood_patterns(user_id, spotify_token, baseline_valence,
    baseline_energy)]: [mood_tracks] and [late_tracks] are the responses
    of the recently-played requests of [detect_mood_shift] and
    [detect_late_night_listening]. *)
Definition analyze_mood_patterns (spotify_token : option string)
    (baseline_valence baseline_energy : Q) (mood_tracks late_tracks : list Track)
    : MoodContribution :=
  let unavailable :=
    {| mc_available := false; mc_mood_shift := None; mc_late_night_analysis := None;
       mc_risk_contribution := 0 |} in
  if negb (str_truthy spotify_token) then unavailable
  else
    let baseline_metrics := [("valence", baseline_valence); ("energy", baseline_energy)] in
    match detect_mood_shift baseline_metrics
            (calculate_mood_metrics after_cutoff get_audio_features 7 mood_tracks) with
    | None => unavailable
    | Some mood_shift =>
        match detect_late_night_listening parse_hour late_tracks with
        | None => unavailable
        | Some late_night_analysis =>
            {| mc_available := true; mc_mood_shift := Some mood_shift;
               mc_late_night_analysis := Some late_night_analysis;
               mc_risk_contribution := Z.min 35 (mood_points mood_shift late_night_analysis) |}
        end
    end.

End SpotifyClock.

End DetectionSources.

(** ** Short names and sample inputs of the tools *)

Module EM := EventMatching.
Module CT := CalendarTool.
Module ST := SpotifyTool.
Module DS := DetectionSources.

(** The order of the risk levels of [calculate_risk_level]. *)
Definition level_rank (l : string) : nat :=
  if String.eqb l "low" then 0
  else if String.eqb l "moderate" then 1
  else if String.eqb l "elevated" then 2
  else if String.eqb l "high" then 3
  else 4.

(** Descending order of the contact counts. *)
Definition count_desc (a b : CT.Contact) : Prop := (CT.c_count b <= CT.c_count a)%nat.

(** The contact table has positive counts and distinct emails. *)
Definition contacts_ok (f : list CT.Contact) : Prop :=
  Forall (fun c => (1 <= CT.c_count c)%nat) f /\ NoDup (map CT.c_email f).

(** A Meetup result of the search. *)
Definition sample_meetup : EM.MeetupFields :=
  {| EM.mf_id := PStr "1"; EM.mf_name := PStr "Board games"; EM.mf_description := PStr "";
     EM.mf_time := PNone; EM.mf_venue := PNone; EM.mf_group := PNone;
     EM.mf_rsvp_count := PNum 120; EM.mf_link := PNone |}.

Definition sample_track : ST.Track :=
  {| ST.track_id := Some "3n3Ppam7vgaVa1iaRUc9Lp"; ST.name := Some "Mr. Brightside";
     ST.artist := Some "The Killers"; ST.played_at := Some "2024-03-01T23:40:00Z";
     ST.duration_ms := Some 222973 |}.

Definition sample_parse_hour (_ : string) : option Z := Some 23%Z.

(** The clock of the recent-track filters of [SpotifyTool]:
    [datetime.fromisoformat(p.replace("Z", "+00:00")) > datetime.utcnow() -
    timedelta(days=days_back)]. A ["Z"] in [p] becomes a ["+00:00"] offset,
    so the parse either fails ([ValueError]) or gives an aware datetime,
    whose comparison with the naive [utcnow()] cutoff raises [TypeError]:
    [None] either way. Other timestamps parse to naive datetimes, which
    [naive_after] compares with the cutoff. *)
Definition utc_after_cutoff (naive_after : Z -> string -> option bool)
    (days_back : Z) (p : string) : option bool :=
  if contains "Z" p then None else naive_after days_back p.

(** A track whose [played_at] is written the way the Spotify API writes
    it, in UTC with a trailing ["Z"]. *)
Definition utc_stamped (t : ST.Track) : Prop :=
  exists p, ST.played_at t = Some p /\ contains "Z" p = true.

(** ** Arithmetic of the Python primitives *)

Lemma py_lt_spec (a b : Q) :
  (py_lt a b = true /\ a < b) \/ (py_lt a b = false /\ b <= a).
Proof.
  unfold py_lt. destruct (Qle_bool b a) eqn:E.
  - right. split; [reflexivity | now apply Qle_bool_iff].
  - left. split; [reflexivity |].
    apply Qnot_le_lt. intro H. apply Qle_bool_iff in H. congruence.
Qed.

Ltac case_py_lt :=
  match goal with
  | |- context [py_lt ?a ?b] =>
      destruct (py_lt_spec a b) as [[-> ?] | [-> ?]]
  end.

Ltac qlin := unfold Qdiv in *; cbn [Qinv Qnum Qden] in *; lra.

Lemma py_min_le_l (a b : Q) : py_min a b <= a.
Proof. unfold py_min. case_py_lt; lra. Qed.

Lemma py_min_le_r (a b : Q) : py_min a b <= b.
Proof. unfold py_min. case_py_lt; lra. Qed.

Lemma py_min_glb (a b c : Q) : c <= a -> c <= b -> c <= py_min a b.
Proof. unfold py_min. case_py_lt; lra. Qed.

Lemma py_min_nonneg (a b : Q) : 0 <= a -> 0 <= b -> 0 <= py_min a b.
Proof. intros. now apply py_min_glb. Qed.

Lemma py_max_ge_l (a b : Q) : a <= py_max a b.
Proof. unfold py_max. case_py_lt; lra. Qed.

Lemma clamp_bounds (x : Q) : 0 <= py_min 100 (py_max 0 x) <= 100.
Proof.
  split.
  - apply py_min_glb; [lra | apply py_max_ge_l].
  - apply py_min_le_l.
Qed.

Lemma py_round_near (x : Q) :
  x - (1 # 2) <= inject_Z (py_round x) <= x + (1 # 2).
Proof.
  unfold py_round. cbv zeta.
  pose proof (Qfloor_le x) as Hle.
  pose proof (Qlt_floor x) as Hlt.
  rewrite inject_Z_plus in Hlt.
  set (f := Qfloor x) in *.
  change (inject_Z 1) with 1 in *.
  destruct (py_lt_spec (x - inject_Z f) (1 # 2)) as [[-> ?] | [-> ?]];
    [lra |].
  destruct (py_lt_spec (1 # 2) (x - inject_Z f)) as [[-> ?] | [-> ?]];
    [rewrite inject_Z_plus; change (inject_Z 1) with 1; lra |].
  destruct (Z.even f); rewrite ?inject_Z_plus; change (inject_Z 1) with 1; lra.
Qed.

Lemma py_round2_near (x : Q) : x - (1 # 200) <= py_round2 x <= x + (1 # 200).
Proof.
  unfold py_round2. pose proof (py_round_near (x * 100)) as H.
  set (r := inject_Z (py_round (x * 100))) in *. qlin.
Qed.

Lemma ratio_nonneg (b c : Q) : 0 < b -> c <= b -> 0 <= (b - c) / b.
Proof.
  intros Hb Hc. unfold Qdiv. apply Qmult_le_0_compat; [lra |].
  apply Qinv_le_0_compat. lra.
Qed.

Lemma py_le_spec (a b : Q) :
  (py_le a b = true /\ a <= b) \/ (py_le a b = false /\ b < a).
Proof.
  unfold py_le. destruct (Qle_bool a b) eqn:E.
  - left. split; [reflexivity | now apply Qle_bool_iff].
  - right. split; [reflexivity |].
    apply Qnot_le_lt. intro H. apply Qle_bool_iff in H. congruence.
Qed.

Lemma lookup_not_in {A : Type} (k : string) (l : list (string * A)) :
  ~ In k (map fst l) -> lookup k l = None.
Proof.
  induction l as [| [k' v] rest IH]; intros Hn; [reflexivity |].
  cbn. destruct (String.eqb_spec k k') as [-> | _].
  - exfalso. apply Hn. now left.
  - apply IH. intro H. apply Hn. now right.
Qed.

Lemma gated_recommendations_calls :
  forall Activity recommend_events lvl interests location,
  let rec := gated_recommendations Activity recommend_events lvl interests location in
  forallb not_generate (snd rec) = true /\
  (recommend_called (snd rec) = true <->
     lvl <> "critical" /\ list_truthy interests = true /\ str_truthy location = true) /\
  (list_truthy interests = false \/ str_truthy location = false -> fst rec = []) /\
  ((exists e, recommend_events (match location with Some l => l | None => "" end)
                (match lookup lvl anxiety_mapping with Some a => a | None => "medium" end)
                (match interests with Some l => l | None => [] end) 5%Z = Err e) ->
     fst rec = []).
Proof.
  intros. subst rec. unfold gated_recommendations, recommend_activities.
  destruct (String.eqb_spec lvl "critical") as [Hc | Hc]; cbn [negb];
    [cbn; intuition congruence |].
  destruct (list_truthy interests), (str_truthy location); cbn [negb orb];
    [| cbn; intuition congruence ..].
  destruct (recommend_events _ _ _ _) as [acts | e] eqn:Hr; cbn;
    [| intuition congruence].
  split; [reflexivity |]. split; [tauto |]. split; [intros [H | H]; discriminate |].
  intros [e He]. discriminate.
Qed.

(** The shape of a [run_intervention] run: recommendations are gated by
    the level, the generator is called once with the built context, and
    the remaining calls only store the intervention. *)
Lemma run_intervention_shape :
  forall Activity recommend_events generate_content store ra user_id
         interests location user_message db_session,
  let run := run_intervention Activity recommend_events generate_content store ra
               user_id interests location user_message db_session in
  let rec := gated_recommendations Activity recommend_events (assessment_level ra)
               interests location in
  let ctx := build_user_context Activity (assessment_score ra)
               (match ra.(a_factors) with Some f => f | None => [] end)
               user_message interests location (fst rec) in
  (fst run).(risk_level) = assessment_level ra /\
  (fst run).(risk_score) = assessment_score ra /\
  (fst run).(activities) = fst rec /\
  (fst run).(action_items) = action_items_for (assessment_level ra) /\
  (fst run).(message) =
    match generate_content ctx with
    | Ok text => text
    | Err _ => generate_empathetic_message (assessment_level ra) (assessment_score ra)
    end /\
  exists calls3,
    snd run = snd rec ++ [CallGenerate ctx] ++ calls3 /\
    recommend_called calls3 = false /\
    forallb not_generate calls3 = true.
Proof.
  intros. subst run rec ctx. unfold run_intervention.
  destruct (gated_recommendations _ _ _ _ _) as [acts calls1].
  cbn zeta. cbn [fst snd].
  destruct db_session, user_id as [uid|]; cbn [fst snd];
    try (repeat split; exists []; repeat split; reflexivity).
  destruct (str_truthy (Some uid)); cbn [fst snd];
    [| repeat split; exists []; repeat split; reflexivity].
  destruct (store _ _ _ _); cbn [fst snd];
    repeat split; eexists; repeat split; reflexivity.
Qed.

(** ** Claims *)

(** C1 (code_bug). [get_risk_level] is boundary-exact on the integer
    boundaries 25, 26, 50, 51, 75, 76 and 100, but [calculate_risk] hands
    it the unrounded composite, and a composite of 25.5 (reached from
    declined-invitation rate 50, contacts 2 -> 1 and historical risk 5)
    falls between the ranges [0,25] and [26,50]: the level is
    ["unknown"]. *)
Theorem get_risk_level_gap_at_fused_score :
  get_risk_level 25 = "low" /\ get_risk_level 26 = "mild" /\
  get_risk_level 50 = "mild" /\ get_risk_level 51 = "moderate" /\
  get_risk_level 75 = "moderate" /\ get_risk_level 76 = "high" /\
  get_risk_level 100 = "high" /\
  get_risk_level (51 # 2) = "unknown" /\
  match calculate_risk empty_spotify gap_calendar gap_baseline with
  | Ok r => r.(factors).(total_score) == 51 # 2 /\ r.(level) = "unknown"
  | Err _ => False
  end.
Proof.
  vm_compute. repeat split; reflexivity.
Qed.

(** C3 (code_bug). [calculate_risk] raises on zero baseline social events
    with a negative current count: the explanation generator divides by
    [baseline_events] without the [baseline_events > 0] guard that
    [calculate_calendar_score] has. *)
Theorem calculate_risk_zero_division :
  calculate_risk empty_spotify zero_baseline_calendar None = Err ZeroDivisionError.
Proof. vm_compute. reflexivity. Qed.

(** C4 (code_bug). In the severe-isolation scenario the composite is 91
    and the level is ["high"]; [run_intervention] builds the crisis
    prompt, but when the message generator fails the template fallback is
    keyed by the level, and the ["high"] template carries no ["988"]. *)
Theorem severe_scenario_fallback_lacks_988 :
  forall (Activity : Type)
         (recommend_events : string -> string -> list string -> Z -> result (list Activity))
         (store : string -> Z -> string -> option Activity -> result string)
         (user_id : option string) (interests : option (list string))
         (location user_message : option string) (db_session : bool),
  match calculate_risk severe_spotify severe_calendar None with
  | Ok r =>
      (76 <= r.(score))%Z /\ r.(score) = 91%Z /\ r.(level) = "high" /\
      let '(p, calls) :=
        run_intervention Activity recommend_events
          (fun _ => Err ZeroDivisionError) store (assessment_of_risk r)
          user_id interests location user_message db_session in
      existsb (fun c => match c with
                        | CallGenerate q => is_crisis_prompt q
                        | _ => false end) calls = true /\
      p.(message) = message_high /\
      contains "988" p.(message) = false
  | Err _ => False
  end.
Proof.
  intros. vm_compute calculate_risk. cbv iota beta.
  match goal with
  | |- context [run_intervention _ _ _ _ ?ra _ _ _ _ _] =>
      pose proof (run_intervention_shape Activity recommend_events
        (fun _ => Err ZeroDivisionError) store ra user_id interests location
        user_message db_session) as H;
      destruct (run_intervention _ _ _ _ ra _ _ _ _ _) as [p calls]
  end.
  cbn [fst snd] in H.
  destruct H as (_ & _ & _ & _ & Hmsg & calls3 & Hcalls & _).
  rewrite Hmsg, Hcalls.
  repeat split; try discriminate.
  - rewrite !existsb_app. cbn. now rewrite orb_true_r.
Qed.

(** C9. With no tokens for either source (both neutral default metric
    sets) and no baseline prior, the detection pipeline reports the
    baseline-only composite 10 * 0.1 = 1: score 1 (in (0, 10]), level
    ["low"]. *)
Theorem neutral_defaults_score_one_low :
  forall analyze_spotify analyze_calendar (user_id : string),
  match run_detection analyze_spotify analyze_calendar user_id None None None with
  | Ok d =>
      (0 < d.(risk_assessment).(score) <= 10)%Z /\
      d.(risk_assessment).(score) = 1%Z /\
      d.(risk_assessment).(factors).(total_score) == 1 /\
      d.(risk_assessment).(factors).(baseline_score) == 10 /\
      d.(risk_assessment).(level) = "low"
  | Err _ => False
  end.
Proof.
  intros. vm_compute. repeat split; reflexivity || discriminate.
Qed.

(** C7. [run_intervention] calls the activity recommender exactly when the
    level is not ["critical"] and both interests and location are present
    (truthy); without interests or location, or when the recommender
    raises at the call [run_intervention] makes (location, the anxiety
    level mapped from the risk level, the interests, limit 5), the
    activities are empty, and the action items and the message are
    produced all the same. *)
Theorem recommender_gated_and_failure_contained :
  forall Activity recommend_events generate_content store ra user_id
         interests location user_message db_session,
  let run := run_intervention Activity recommend_events generate_content store ra
               user_id interests location user_message db_session in
  (recommend_called (snd run) = true <->
     assessment_level ra <> "critical" /\ list_truthy interests = true /\
     str_truthy location = true) /\
  (list_truthy interests = false \/ str_truthy location = false ->
     (fst run).(activities) = []) /\
  ((exists e, recommend_events (match location with Some l => l | None => "" end)
                (match lookup (assessment_level ra) anxiety_mapping with
                 | Some a => a | None => "medium" end)
                (match interests with Some l => l | None => [] end) 5%Z = Err e) ->
     (fst run).(activities) = []) /\
  (fst run).(action_items) = action_items_for (assessment_level ra) /\
  exists ctx,
    (fst run).(message) =
      match generate_content ctx with
      | Ok text => text
      | Err _ => generate_empathetic_message (assessment_level ra) (assessment_score ra)
      end.
Proof.
  intros. subst run.
  destruct (run_intervention_shape Activity recommend_events generate_content store ra
              user_id interests location user_message db_session)
    as (_ & _ & Hacts & Hitems & Hmsg & calls3 & Hcalls & Hrec3 & _).
  destruct (gated_recommendations_calls Activity recommend_events (assessment_level ra)
              interests location) as (_ & Hcalled & Habsent & Hraise).
  rewrite Hacts, Hitems, Hcalls.
  split; [| split; [| split; [| split]]].
  - unfold recommend_called in *. rewrite !existsb_app, Hrec3.
    cbn [existsb orb]. rewrite !orb_false_r. exact Hcalled.
  - exact Habsent.
  - exact Hraise.
  - reflexivity.
  - eexists. exact Hmsg.
Qed.

(** C8. The generator of [run_intervention] is called with the crisis
    prompt exactly when the assessment's numeric score is at least 76,
    whatever its level label; otherwise with the standard prompt. *)
Theorem crisis_prompt_iff_score_ge_76 :
  forall Activity recommend_events generate_content store ra user_id
         interests location user_message db_session,
  let calls := snd (run_intervention Activity recommend_events generate_content store ra
                      user_id interests location user_message db_session) in
  (exists p, In (CallGenerate p) calls) /\
  forall p, In (CallGenerate p) calls ->
    (is_crisis_prompt p = true <-> (76 <= assessment_score ra)%Z).
Proof.
  intros. subst calls.
  destruct (run_intervention_shape Activity recommend_events generate_content store ra
              user_id interests location user_message db_session)
    as (_ & _ & _ & _ & _ & calls3 & Hcalls & _ & Hgen3).
  destruct (gated_recommendations_calls Activity recommend_events (assessment_level ra)
              interests location) as (Hgen1 & _).
  rewrite Hcalls. split.
  - eexists. apply in_or_app. right. now left.
  - intros p Hin.
    apply in_app_or in Hin as [Hin | [Heq | Hin]].
    + rewrite forallb_forall in Hgen1. apply Hgen1 in Hin. discriminate.
    + injection Heq as <-. unfold build_user_context.
      destruct (Z.leb_spec 76 (assessment_score ra)); cbn; split;
        auto; intros; [discriminate | lia].
    + rewrite forallb_forall in Hgen3. apply Hgen3 in Hin. discriminate.
Qed.

(** C10. A level outside low/moderate/elevated/high/critical, such as
    ["mild"] which the classifier returns for scores in [26, 50], gets no
    action items from [run_intervention] or
    [generate_intervention_strategy], and the template message is the
    ["moderate"] one. *)
Theorem unlisted_level_gets_moderate_message_no_actions :
  forall lvl : string,
  ~ In lvl ["low"; "moderate"; "elevated"; "high"; "critical"] ->
  (forall q : Q, 26 <= q <= 50 -> get_risk_level q = "mild") /\
  (forall s : Z, generate_empathetic_message lvl s = message_moderate) /\
  forall Activity recommend_events generate_content store score_opt factors_opt user_id
         interests location user_message db_session,
  let ra := {| a_level := Some lvl; a_score := score_opt; a_factors := factors_opt |} in
  let run := run_intervention Activity recommend_events generate_content store ra
               user_id interests location user_message db_session in
  let strategy := generate_intervention_strategy Activity recommend_events ra
                    interests location in
  (fst run).(action_items) = [] /\
  (fst strategy).(action_items) = [] /\
  (fst strategy).(message) = message_moderate /\
  ((forall p, exists e, generate_content p = Err e) ->
     (fst run).(message) = message_moderate).
Proof.
  intros lvl Hn.
  assert (Hmsg : forall s, generate_empathetic_message lvl s = message_moderate).
  { intros s. unfold generate_empathetic_message. now rewrite lookup_not_in. }
  assert (Hitems : action_items_for lvl = []).
  { unfold action_items_for.
    repeat match goal with
    | |- context [String.eqb lvl ?k] =>
        destruct (String.eqb_spec lvl k) as [-> | _];
          [exfalso; apply Hn; cbn; tauto |]
    end. reflexivity. }
  split; [| split; [exact Hmsg |]].
  - intros q [H1 H2]. unfold get_risk_level, RISK_CATEGORIES. cbn [find_level].
    destruct (py_le_spec 0 q) as [[-> _] | [-> ?]]; [| lra].
    destruct (py_le_spec q 25) as [[-> ?] | [-> _]]; [lra |].
    destruct (py_le_spec 26 q) as [[-> _] | [-> ?]]; [| lra].
    destruct (py_le_spec q 50) as [[-> _] | [-> ?]]; [reflexivity | lra].
  - intros. subst run strategy ra.
    destruct (run_intervention_shape Activity recommend_events generate_content store
                {| a_level := Some lvl; a_score := score_opt; a_factors := factors_opt |}
                user_id interests location user_message db_session)
      as (_ & _ & _ & Hit & Hm & _).
    cbn [assessment_level a_level] in Hit, Hm.
    unfold generate_intervention_strategy. cbn [assessment_level a_level].
    destruct (gated_recommendations _ _ _ _ _) as [acts calls]. cbn.
    rewrite Hit, Hitems, Hmsg. repeat split.
    intros Hfail. rewrite Hm.
    match goal with
    | |- match generate_content ?p with _ => _ end = _ =>
        destruct (Hfail p) as [e ->]
    end.
    apply Hmsg.
Qed.

(** C5. [calculate_risk] fuses the subscores as
    spotify*0.4 + calendar*0.5 + baseline*0.1, clamps the composite to
    [0,100], reports it rounded to the nearest integer, and keeps the
    unrounded subscores and composite in the factors, each rounded to two
    decimals. *)
Theorem composite_fused_clamped_rounded :
  forall sm cm bd r,
  calculate_risk sm cm bd = Ok r ->
  let s := calculate_spotify_score sm in
  let c := calculate_calendar_score cm in
  let b := calculate_baseline_risk bd in
  let total := py_min 100 (py_max 0 (s * (4 # 10) + c * (5 # 10) + b * (1 # 10))) in
  0 <= total <= 100 /\
  r.(score) = py_round total /\
  total - (1 # 2) <= inject_Z r.(score) <= total + (1 # 2) /\
  r.(factors) = {| spotify_score := py_round2 s; calendar_score := py_round2 c;
                   baseline_score := py_round2 b; total_score := py_round2 total |} /\
  s - (1 # 200) <= r.(factors).(spotify_score) <= s + (1 # 200) /\
  c - (1 # 200) <= r.(factors).(calendar_score) <= c + (1 # 200) /\
  b - (1 # 200) <= r.(factors).(baseline_score) <= b + (1 # 200) /\
  total - (1 # 200) <= r.(factors).(total_score) <= total + (1 # 200).
Proof.
  intros sm cm bd r H. unfold calculate_risk in H.
  destruct (generate_risk_explanation sm cm) as [expl | e]; [| discriminate].
  injection H as <-. cbv zeta. cbn [score factors spotify_score calendar_score
    baseline_score total_score].
  unfold SPOTIFY_WEIGHT, CALENDAR_WEIGHT, BASELINE_WEIGHT.
  repeat split;
    try apply clamp_bounds;
    try apply py_round_near;
    try apply py_round2_near.
Qed.

(** C6. When [generate_risk_explanation] returns, its list is the seven
    candidate statements of the spec, in order and with their thresholds,
    kept when their trigger holds; it is never empty, and it is exactly
    the neutral statement when no trigger holds. It raises only on a zero
    baseline of social events with a smaller current count. *)
Theorem explanation_follows_candidate_order :
  forall sm cm,
  match generate_risk_explanation sm cm with
  | Ok l =>
      l = explanation_reference sm cm /\ l <> [] /\
      (forallb (fun cand => negb (fst cand)) (explanation_candidates sm cm) = true ->
         l = [NoSignificantPatterns])
  | Err _ =>
      get cm.(baseline_social_events) 8 == 0 /\
      get cm.(current_social_events) 8 < get cm.(baseline_social_events) 8
  end.
Proof.
  intros sm cm.
  unfold generate_risk_explanation, explanation_reference, explanation_candidates.
  cbv zeta.
  repeat case_py_lt; cbn [fst snd negb filter map app forallb andb];
    unfold py_div;
    try (destruct (Qeq_bool _ 0) eqn:Hz; cbn [fst snd negb filter map app forallb andb]);
    repeat split; try reflexivity; try discriminate;
    try (intros; reflexivity); try (intros; discriminate);
    try (apply Qeq_bool_iff; assumption); try assumption.
Qed.

(** C2 (code_bug). The subscores are not floored at 0. A user with 20
    current social events over a baseline of 8, a valid input, gets a
    calendar subscore of -100.005, below the 0 of the empty metrics: the
    event-decline term (8 - 20) / 8 * 66.67 is only capped from above by
    [min(50, _)]. Likewise a late-night percentage of -100 gives a
    listening subscore of -50, below the 0 of the empty metrics. *)
Theorem subscores_go_negative :
  calculate_calendar_score more_events_than_baseline == -(100005 # 1000) /\
  calculate_calendar_score empty_calendar == 0 /\
  calculate_spotify_score negative_late_night == -50 /\
  calculate_spotify_score empty_spotify == 0.
Proof. vm_compute. repeat split; reflexivity. Qed.

(** ** Further properties of the backend

    Helper lemmas of the tools come first; each further property is
    stated as a [Theorem]. *)

Lemma py_round_ge_int (m : Z) (y : Q) : inject_Z m <= y -> (m <= py_round y)%Z.
Proof.
  intros H. pose proof (py_round_near y) as [Hl _].
  destruct (Z_lt_le_dec (py_round y) m) as [Hlt | Hle]; [| exact Hle].
  exfalso. assert (Hz : (py_round y + 1 <= m)%Z) by lia.
  rewrite Zle_Qle, inject_Z_plus in Hz. change (inject_Z 1) with 1 in Hz. lra.
Qed.

Lemma py_round_le_int (m : Z) (y : Q) : y <= inject_Z m -> (py_round y <= m)%Z.
Proof.
  intros H. pose proof (py_round_near y) as [_ Hu].
  destruct (Z_lt_le_dec m (py_round y)) as [Hlt | Hle]; [| exact Hle].
  exfalso. assert (Hz : (m + 1 <= py_round y)%Z) by lia.
  rewrite Zle_Qle, inject_Z_plus in Hz. change (inject_Z 1) with 1 in Hz. lra.
Qed.

Lemma py_round2_ge_int (m : Z) (x : Q) : inject_Z m <= x -> inject_Z m <= py_round2 x.
Proof.
  intros H. unfold py_round2.
  assert (Hr : (100 * m <= py_round (x * 100))%Z).
  { apply py_round_ge_int. rewrite inject_Z_mult. change (inject_Z 100) with 100. lra. }
  rewrite Zle_Qle, inject_Z_mult in Hr. change (inject_Z 100) with 100 in Hr. qlin.
Qed.

Lemma py_round2_le_int (m : Z) (x : Q) : x <= inject_Z m -> py_round2 x <= inject_Z m.
Proof.
  intros H. unfold py_round2.
  assert (Hr : (py_round (x * 100) <= 100 * m)%Z).
  { apply py_round_le_int. rewrite inject_Z_mult. change (inject_Z 100) with 100. lra. }
  rewrite Zle_Qle, inject_Z_mult in Hr. change (inject_Z 100) with 100 in Hr. qlin.
Qed.

Lemma py_round3_ge_int (m : Z) (x : Q) : inject_Z m <= x -> inject_Z m <= py_round3 x.
Proof.
  intros H. unfold py_round3.
  assert (Hr : (1000 * m <= py_round (x * 1000))%Z).
  { apply py_round_ge_int. rewrite inject_Z_mult. change (inject_Z 1000) with 1000. lra. }
  rewrite Zle_Qle, inject_Z_mult in Hr. change (inject_Z 1000) with 1000 in Hr. qlin.
Qed.

Lemma py_round3_le_int (m : Z) (x : Q) : x <= inject_Z m -> py_round3 x <= inject_Z m.
Proof.
  intros H. unfold py_round3.
  assert (Hr : (py_round (x * 1000) <= 1000 * m)%Z).
  { apply py_round_le_int. rewrite inject_Z_mult. change (inject_Z 1000) with 1000. lra. }
  rewrite Zle_Qle, inject_Z_mult in Hr. change (inject_Z 1000) with 1000 in Hr. qlin.
Qed.

Lemma py_int_ge (m : Z) (x : Q) : (0 <= m)%Z -> inject_Z m <= x -> (m <= py_int x)%Z.
Proof.
  destruct x as [n d]. unfold py_int, Qle. cbn. intros Hm H.
  rewrite Z.quot_div_nonneg by lia.
  apply Z.div_le_lower_bound; lia.
Qed.

Lemma py_int_nonneg (x : Q) : 0 <= x -> (0 <= py_int x)%Z.
Proof. intros H. apply (py_int_ge 0); [lia | exact H]. Qed.

Lemma py_int_neg_iff (x : Q) : (py_int x < 0)%Z <-> x <= -1.
Proof.
  destruct x as [n d]. unfold py_int, Qle. cbn.
  destruct (Z_lt_le_dec n 0) as [Hn | Hn].
  - replace n with (- (- n))%Z at 1 by lia.
    rewrite Z.quot_opp_l by lia.
    rewrite Z.quot_div_nonneg by lia.
    split; intros H.
    + destruct (Z_lt_le_dec (- n) (Z.pos d)) as [Hs | Hs]; [| lia].
      rewrite Z.div_small in H by lia. lia.
    + assert (0 < - n / Z.pos d)%Z by (apply Z.div_str_pos; lia). lia.
  - rewrite Z.quot_div_nonneg by lia.
    assert (0 <= n / Z.pos d)%Z by (apply Z.div_pos; lia). lia.
Qed.

(** ** subsequences *)

Lemma subseq_refl {A : Type} (l : list A) : subseq l l.
Proof. induction l; [apply subseq_nil | apply subseq_take; auto]. Qed.

Lemma subseq_nil_l {A : Type} (l : list A) : subseq [] l.
Proof. induction l; [apply subseq_nil | apply subseq_skip; auto]. Qed.

Lemma subseq_trans {A : Type} (l1 l2 l3 : list A) :
  subseq l1 l2 -> subseq l2 l3 -> subseq l1 l3.
Proof.
  intros H12 H23. revert l1 H12.
  induction H23 as [| x l2 l3 H IH | x l2 l3 H IH]; intros l1 H12.
  - exact H12.
  - apply subseq_skip. now apply IH.
  - inversion H12; subst.
    + apply subseq_skip. now apply IH.
    + apply subseq_take. now apply IH.
Qed.

Lemma subseq_length {A : Type} (l1 l2 : list A) : subseq l1 l2 -> (length l1 <= length l2)%nat.
Proof. induction 1; cbn; lia. Qed.

Lemma subseq_firstn {A : Type} (n : nat) (l : list A) : subseq (firstn n l) l.
Proof.
  revert n. induction l as [| x l IH]; intros [| n]; cbn.
  - apply subseq_nil.
  - apply subseq_nil.
  - apply subseq_nil_l.
  - apply subseq_take. apply IH.
Qed.

Lemma subseq_filter {A : Type} (p : A -> bool) (l : list A) : subseq (filter p l) l.
Proof.
  induction l as [| x l IH]; cbn; [apply subseq_nil |].
  destruct (p x); [apply subseq_take | apply subseq_skip]; exact IH.
Qed.

Lemma filter_opt_subseq {A : Type} (p : A -> option bool) (l r : list A) :
  filter_opt p l = Some r -> subseq r l.
Proof.
  revert r. induction l as [| x l IH]; intros r H; cbn in H.
  - injection H as <-. apply subseq_nil.
  - destruct (p x) as [b |]; [| discriminate].
    destruct (filter_opt p l) as [r' |] eqn:E; [| discriminate].
    injection H as <-.
    destruct b; [apply subseq_take | apply subseq_skip]; now apply IH.
Qed.

Lemma filter_opt_all_true {A : Type} (p : A -> option bool) (l : list A) :
  Forall (fun x => p x = Some true) l -> filter_opt p l = Some l.
Proof.
  induction 1 as [| x l Hx _ IH]; cbn; [reflexivity |].
  now rewrite Hx, IH.
Qed.

Lemma slice_to_subseq {A : Type} (l : list A) (limit : Z) : subseq (slice_to l limit) l.
Proof. unfold slice_to. destruct (0 <=? limit)%Z; apply subseq_firstn. Qed.

Lemma slice_to_length {A : Type} (l : list A) (limit : Z) :
  (0 <= limit)%Z -> (length (slice_to l limit) <= Z.to_nat limit)%nat.
Proof.
  intros H. unfold slice_to. apply Z.leb_le in H. rewrite H.
  rewrite length_firstn. lia.
Qed.



(** The level of [calculate_risk_level] always has a message template, an
    anxiety mapping and action items. *)
Theorem calculate_risk_level_has_templates (score : Z) :
  let level := Utils.calculate_risk_level score in
  lookup level messages <> None /\ lookup level anxiety_mapping <> None /\
  action_items_for level <> [].
Proof.
  cbv zeta. unfold Utils.calculate_risk_level, Utils.risk_score_low_threshold,
    Utils.risk_score_moderate_threshold, Utils.risk_score_elevated_threshold.
  destruct (score <? 25)%Z; [cbn; repeat split; discriminate |].
  destruct (score <? 50)%Z; [cbn; repeat split; discriminate |].
  destruct (score <? 75)%Z; [cbn; repeat split; discriminate |].
  destruct (score <? 90)%Z; cbn; repeat split; discriminate.
Qed.

(** A higher score never gives a lower level of [calculate_risk_level],
    in the order low, moderate, elevated, high, critical. *)
Theorem calculate_risk_level_monotone (s1 s2 : Z) :
  (s1 <= s2)%Z ->
  (level_rank (Utils.calculate_risk_level s1) <= level_rank (Utils.calculate_risk_level s2))%nat.
Proof.
  intros H. unfold Utils.calculate_risk_level, Utils.risk_score_low_threshold,
    Utils.risk_score_moderate_threshold, Utils.risk_score_elevated_threshold.
  destruct (Z.ltb_spec s1 25), (Z.ltb_spec s1 50), (Z.ltb_spec s1 75), (Z.ltb_spec s1 90),
    (Z.ltb_spec s2 25), (Z.ltb_spec s2 50), (Z.ltb_spec s2 75), (Z.ltb_spec s2 90);
    cbn; lia.
Qed.



Lemma size_ok_meetup (bound : Q) (f : EM.MeetupFields) (q : Q) :
  0 < bound -> EM.mf_rsvp_count f = PNum q -> EM.size_ok bound (EM.meetup_event f) = Some true.
Proof.
  intros Hb Hq. unfold EM.size_ok, EM.get_val, EM.meetup_event. cbn. rewrite Hq. cbn.
  case_py_lt; [reflexivity |]. cbn. case_py_lt; [reflexivity | lra].
Qed.

Lemma size_ok_eventbrite (bound : Q) (f : EM.EventbriteFields) :
  0 < bound -> EM.size_ok bound (EM.eventbrite_event f) = Some true.
Proof.
  intros Hb. unfold EM.size_ok, EM.get_val, EM.eventbrite_event. cbn.
  case_py_lt; [reflexivity | lra].
Qed.

(** The size filter never removes an event built by the Meetup or
    Eventbrite search: Meetup events have no ["capacity"] (default 0) and
    Eventbrite events no ["rsvp_count"] (default 0), so one side of the
    [or] is always [0 < bound]. *)
Theorem filter_by_anxiety_level_keeps_search_results :
  forall meetup_items eventbrite_items location anxiety_level,
  Forall (fun f => exists q, EM.mf_rsvp_count f = PNum q) (meetup_items location) ->
  EM.filter_by_anxiety_level (EM.get_all_events meetup_items eventbrite_items location)
    anxiety_level
  = Some (EM.get_all_events meetup_items eventbrite_items location).
Proof.
  intros mi ei loc lvl Hm.
  assert (Hall : forall bound, 0 < bound ->
            Forall (fun e => EM.size_ok bound e = Some true)
              (EM.get_all_events mi ei loc)).
  { intros bound Hb. unfold EM.get_all_events, EM.search_meetup_events,
      EM.search_eventbrite_events, EM.search_tamu_events.
    rewrite app_nil_r. apply Forall_app. split.
    - apply Forall_map. eapply Forall_impl; [| exact Hm].
      intros f [q Hq]. now apply (size_ok_meetup bound f q).
    - apply Forall_map. apply Forall_forall. intros f _. now apply size_ok_eventbrite. }
  unfold EM.filter_by_anxiety_level.
  destruct (String.eqb lvl "low"); [reflexivity |].
  destruct (String.eqb lvl "medium"); [apply filter_opt_all_true, Hall; lra |].
  destruct (String.eqb lvl "high"); [apply filter_opt_all_true, Hall; lra | reflexivity].
Qed.



Lemma interest_hit_existsb (interests : list string) (text : string) :
  EM.interest_hit interests text = existsb (fun i => contains (lower i) text) interests.
Proof.
  induction interests as [| i is IH]; cbn; [reflexivity |].
  destruct (contains (lower i) text); [reflexivity | exact IH].
Qed.

Lemma match_loop_filter (str_num : Q -> string) (interests : list string) (events : list EM.event) :
  EM.match_loop str_num interests events
  = filter (fun e => existsb (fun i => contains (lower i) (EM.event_text str_num e)) interests)
      events.
Proof.
  induction events as [| e rest IH]; cbn; [reflexivity |].
  rewrite interest_hit_existsb, IH. reflexivity.
Qed.

Lemma match_interests_filter (str_num : Q -> string) (events : list EM.event)
    (interests : list string) :
  EM.match_interests str_num events interests
  = filter (fun e => match interests with
                     | [] => true
                     | _ => existsb (fun i => contains (lower i) (EM.event_text str_num e))
                              interests
                     end) events.
Proof.
  unfold EM.match_interests. destruct interests as [| i is].
  - induction events as [| e rest IH]; cbn; [reflexivity | now rewrite <- IH].
  - apply match_loop_filter.
Qed.

Lemma filter_by_anxiety_level_subseq (events r : list EM.event) (lvl : string) :
  EM.filter_by_anxiety_level events lvl = Some r -> subseq r events.
Proof.
  unfold EM.filter_by_anxiety_level. intros H.
  destruct (String.eqb lvl "low"); [injection H as <-; apply subseq_refl |].
  destruct (String.eqb lvl "medium"); [eapply filter_opt_subseq; exact H |].
  destruct (String.eqb lvl "high"); [eapply filter_opt_subseq; exact H |].
  injection H as <-. apply subseq_refl.
Qed.

(** [recommend_events] returns, in order, some of the fetched events, and
    at most [limit] of them. *)
Theorem recommend_events_subseq_within_limit :
  forall str_num meetup_items eventbrite_items location anxiety_level interests limit r,
  EM.recommend_events str_num meetup_items eventbrite_items location anxiety_level
    interests limit = Some r ->
  subseq r (EM.get_all_events meetup_items eventbrite_items location) /\
  ((0 <= limit)%Z -> (length r <= Z.to_nat limit)%nat).
Proof.
  intros sn mi ei loc lvl ints limit r H. unfold EM.recommend_events in H.
  destruct (EM.filter_by_anxiety_level _ lvl) as [filtered |] eqn:Hf; [| discriminate].
  injection H as <-. apply filter_by_anxiety_level_subseq in Hf.
  split; [| apply slice_to_length].
  eapply subseq_trans; [apply slice_to_subseq |].
  destruct (list_truthy ints); [| exact Hf].
  eapply subseq_trans; [| exact Hf].
  rewrite match_interests_filter. apply subseq_filter.
Qed.



(** The test [filter_social_events] applies, with the recurring-meeting
    branch reduced to what it adds to the keyword test. *)
Lemma recurrence_empty_no_freq :
  contains "freq=daily" (lower (repr_str_list [])) = false /\
  contains "freq=weekly" (lower (repr_str_list [])) = false.
Proof. split; reflexivity. Qed.

Lemma keep_social_event_spec (event : CT.CalEvent) :
  CT.keep_social_event event =
  (let summary := lower (match CT.ev_summary event with Some s => s | None => "" end) in
   let recurrence_str := lower (repr_str_list (CT.ev_recurrence event)) in
   Nat.leb 2 (length (CT.ev_attendees event))
   && negb (CT.has_key "date" (CT.ev_start event)
            && negb (CT.has_key "dateTime" (CT.ev_start event)))
   && negb (existsb (fun keyword => contains keyword summary) CT.work_keywords)
   && negb ((contains "freq=daily" recurrence_str || contains "freq=weekly" recurrence_str)
            && (contains "meeting" summary || contains "scrum" summary))).
Proof.
  unfold CT.keep_social_event. cbv zeta. rewrite Nat.ltb_antisym.
  unfold CT.work_terms, CT.work_keywords. cbn [existsb].
  destruct (CT.ev_recurrence event) as [| r rest];
    [rewrite (proj1 recurrence_empty_no_freq), (proj2 recurrence_empty_no_freq) |];
    repeat match goal with
           | |- context [contains ?k ?s] => generalize (contains k s); intros ?
           end;
    generalize (Nat.leb 2 (length (CT.ev_attendees event)));
    generalize (CT.has_key "date" (CT.ev_start event));
    generalize (CT.has_key "dateTime" (CT.ev_start event));
    intros; repeat match goal with b : bool |- _ => destruct b end; reflexivity.
Qed.

(** [filter_social_events] keeps, in order, the events with two or more
    attendees, that are not all-day, whose lowered summary has none of
    the work keywords, and that are not a daily or weekly recurrence
    titled with "meeting" or "scrum": the other work terms of the
    recurring-meeting test are work keywords already. *)
Theorem filter_social_events_spec (events : list CT.CalEvent) :
  CT.filter_social_events events =
  filter (fun event =>
    let summary := lower (match CT.ev_summary event with Some s => s | None => "" end) in
    let recurrence_str := lower (repr_str_list (CT.ev_recurrence event)) in
    Nat.leb 2 (length (CT.ev_attendees event))
    && negb (CT.has_key "date" (CT.ev_start event)
             && negb (CT.has_key "dateTime" (CT.ev_start event)))
    && negb (existsb (fun keyword => contains keyword summary) CT.work_keywords)
    && negb ((contains "freq=daily" recurrence_str || contains "freq=weekly" recurrence_str)
             && (contains "meeting" summary || contains "scrum" summary))) events.
Proof.
  induction events as [| e rest IH]; [reflexivity |].
  cbn [CT.filter_social_events filter]. rewrite keep_social_event_spec, IH. reflexivity.
Qed.

Lemma declined_attendee_step_inv (event : CT.CalEvent) (a : CT.Attendee) t d l :
  (d <= t)%nat -> length l = d ->
  let '(t', d', l') := CT.declined_attendee_step event (t, d, l) a in
  (d' <= t')%nat /\ length l' = d'.
Proof.
  intros Hdt Hl. unfold CT.declined_attendee_step.
  destruct (CT.at_self a); [| auto].
  destruct (match CT.at_response_status a with Some s => String.eqb s "declined" | None => false end).
  - rewrite length_app. cbn. lia.
  - lia.
Qed.

Lemma declined_attendees_inv (event : CT.CalEvent) (atts : list CT.Attendee) :
  forall t d l, (d <= t)%nat -> length l = d ->
  let '(t', d', l') := fold_left (CT.declined_attendee_step event) atts (t, d, l) in
  (d' <= t')%nat /\ length l' = d'.
Proof.
  induction atts as [| a rest IH]; intros t d l Hdt Hl; cbn [fold_left]; [auto |].
  pose proof (declined_attendee_step_inv event a t d l Hdt Hl) as H.
  destruct (CT.declined_attendee_step event (t, d, l) a) as [[t1 d1] l1].
  destruct H. now apply IH.
Qed.

Lemma declined_events_inv (events : list CT.CalEvent) :
  forall t d l, (d <= t)%nat -> length l = d ->
  let '(t', d', l') := fold_left CT.declined_event_step events (t, d, l) in
  (d' <= t')%nat /\ length l' = d'.
Proof.
  induction events as [| e rest IH]; intros t d l Hdt Hl; cbn [fold_left]; [auto |].
  unfold CT.declined_event_step at 2.
  pose proof (declined_attendees_inv e (CT.ev_attendees e) t d l Hdt Hl) as H.
  destruct (fold_left (CT.declined_attendee_step e) (CT.ev_attendees e) (t, d, l))
    as [[t1 d1] l1].
  destruct H as [H1 H2]. now apply IH.
Qed.

Lemma ratio_unit (d t : nat) :
  (d <= t)%nat -> (0 < t)%nat ->
  0 <= inject_Z (Z.of_nat d) / inject_Z (Z.of_nat t) <= 1.
Proof.
  intros Hdt Ht.
  assert (HT : 0 < inject_Z (Z.of_nat t)).
  { change 0 with (inject_Z 0). rewrite <- Zlt_Qlt. lia. }
  assert (HD : 0 <= inject_Z (Z.of_nat d)).
  { change 0 with (inject_Z 0). rewrite <- Zle_Qle. lia. }
  assert (HDT : inject_Z (Z.of_nat d) <= inject_Z (Z.of_nat t)).
  { rewrite <- Zle_Qle. lia. }
  split.
  - apply Qle_shift_div_l; [exact HT | lra].
  - apply Qle_shift_div_r; [exact HT | lra].
Qed.

Lemma scaled_ratio_unit (d t : nat) :
  (d <= t)%nat ->
  let r := if Nat.ltb 0 t
           then (inject_Z (Z.of_nat d) / inject_Z (Z.of_nat t)) * 100 else 0 in
  0 <= r <= 100.
Proof.
  intros Hdt r. subst r. destruct (Nat.ltb_spec 0 t) as [Ht | Ht]; [| lra].
  pose proof (ratio_unit d t Hdt Ht) as Hu.
  set (x := inject_Z (Z.of_nat d) / inject_Z (Z.of_nat t)) in *. lra.
Qed.

(** [get_declined_invitations]: the declined count never exceeds the
    invitations; the rounded decline rate lies in [0, 100] and is at least
    40 when [is_concerning] is true; the declined events reported are the
    first five; only the [HttpError] branch has no [declined_events]. *)
Theorem get_declined_invitations_bounds (items : option (list CT.CalEvent)) :
  let r := CT.get_declined_invitations items in
  (CT.declined_count r <= CT.total_invitations r)%nat /\
  0 <= CT.decline_rate r <= 100 /\
  (CT.is_concerning r = Some true -> 40 <= CT.decline_rate r) /\
  match CT.declined_events r with
  | Some evs => length evs = Nat.min 5 (CT.declined_count r)
  | None => items = None
  end.
Proof.
  destruct items as [events |]; cbn [CT.get_declined_invitations].
  - pose proof (declined_events_inv events 0 0 [] (le_n 0) eq_refl) as H.
    destruct (fold_left CT.declined_event_step events (0%nat, 0%nat, [])) as [[t d] l].
    destruct H as [Hdt Hl].
    cbn [CT.declined_count CT.total_invitations CT.decline_rate CT.is_concerning
         CT.declined_events].
    pose proof (scaled_ratio_unit d t Hdt) as Hr. cbv zeta in Hr.
    set (raw := if Nat.ltb 0 t then _ else _) in *.
    split; [exact Hdt |]. split.
    { split; [apply (py_round2_ge_int 0) | apply (py_round2_le_int 100)]; apply Hr. }
    split.
    + intros Hc. injection Hc as Hc. apply (py_round2_ge_int 40).
      destruct (py_lt_spec 40 raw) as [[_ H] | [E _]]; [change (inject_Z 40) with 40; lra |].
      rewrite E in Hc. discriminate.
    + rewrite length_firstn. lia.
  - cbn. repeat split; try lra; try lia; intros; discriminate.
Qed.


Lemma fold_left_inv {A B : Type} (P : A -> Prop) (f : A -> B -> A) :
  (forall acc x, P acc -> P (f acc x)) ->
  forall l acc, P acc -> P (fold_left f l acc).
Proof. intros Hf l. induction l as [| x l IH]; intros acc H; cbn; auto. Qed.

Lemma insert_by_count_perm (c : CT.Contact) (l : list CT.Contact) :
  Permutation (CT.insert_by_count c l) (c :: l).
Proof.
  induction l as [| h l IH]; cbn [CT.insert_by_count]; [reflexivity |].
  destruct (Nat.ltb (CT.c_count h) (CT.c_count c)); [reflexivity |].
  etransitivity; [apply perm_skip, IH | apply perm_swap].
Qed.

Lemma sort_by_count_desc_perm_acc (l acc : list CT.Contact) :
  Permutation (fold_left (fun acc c => CT.insert_by_count c acc) l acc) (l ++ acc).
Proof.
  revert acc. induction l as [| c l IH]; intros acc; cbn; [reflexivity |].
  etransitivity; [apply IH |].
  etransitivity; [apply Permutation_app_head, insert_by_count_perm |].
  symmetry. apply Permutation_middle.
Qed.

Lemma sort_by_count_desc_perm (l : list CT.Contact) :
  Permutation (CT.sort_by_count_desc l) l.
Proof.
  unfold CT.sort_by_count_desc. rewrite <- (app_nil_r l) at 2.
  apply sort_by_count_desc_perm_acc.
Qed.

Lemma insert_by_count_hd (x c : CT.Contact) (l : list CT.Contact) :
  HdRel count_desc x l -> count_desc x c -> HdRel count_desc x (CT.insert_by_count c l).
Proof.
  intros Hl Hc. destruct l as [| h l]; cbn [CT.insert_by_count]; [now constructor |].
  destruct (Nat.ltb (CT.c_count h) (CT.c_count c)); constructor; [exact Hc |].
  now inversion Hl.
Qed.

Lemma insert_by_count_sorted (c : CT.Contact) (l : list CT.Contact) :
  Sorted count_desc l -> Sorted count_desc (CT.insert_by_count c l).
Proof.
  induction 1 as [| h l Hs IH Hhd]; cbn [CT.insert_by_count].
  - now repeat constructor.
  - destruct (Nat.ltb_spec (CT.c_count h) (CT.c_count c)) as [Hlt | Hge].
    + constructor; [now constructor | constructor; unfold count_desc; lia].
    + constructor; [exact IH |]. apply insert_by_count_hd; [exact Hhd |].
      unfold count_desc; lia.
Qed.

Lemma sort_by_count_desc_sorted (l : list CT.Contact) :
  Sorted count_desc (CT.sort_by_count_desc l).
Proof.
  unfold CT.sort_by_count_desc.
  apply (fold_left_inv (Sorted count_desc)); [| constructor].
  intros acc c H. now apply insert_by_count_sorted.
Qed.

Lemma sorted_firstn {A : Type} (R : A -> A -> Prop) (n : nat) (l : list A) :
  Sorted R l -> Sorted R (firstn n l).
Proof.
  revert l. induction n as [| n IH]; intros l H; [constructor |].
  destruct l as [| x l]; cbn; [constructor |].
  inversion H as [| ? ? Hs Hhd]; subst. constructor; [now apply IH |].
  destruct l as [| y l]; destruct n; cbn; constructor. now inversion Hhd.
Qed.

Lemma nodup_firstn {A : Type} (n : nat) (l : list A) : NoDup l -> NoDup (firstn n l).
Proof.
  intros H. rewrite <- (firstn_skipn n l) in H. now apply NoDup_app_remove_r in H.
Qed.

Lemma bump_contact_emails (e : string) (nm : option string) (f : list CT.Contact) :
  map CT.c_email (CT.bump_contact e nm f) =
  if existsb (fun c => String.eqb (CT.c_email c) e) f then map CT.c_email f
  else map CT.c_email f ++ [e].
Proof.
  induction f as [| c rest IH]; cbn; [reflexivity |].
  destruct (String.eqb (CT.c_email c) e); cbn; [reflexivity |].
  rewrite IH. destruct (existsb _ rest); reflexivity.
Qed.


Lemma bump_contact_ok (e : string) (nm : option string) (f : list CT.Contact) :
  contacts_ok f -> contacts_ok (CT.bump_contact e nm f).
Proof.
  intros [Hc Hn]. split.
  - clear Hn. induction f as [| c rest IH]; cbn.
    + constructor; [cbn; lia | constructor].
    + inversion Hc; subst.
      destruct (String.eqb (CT.c_email c) e); constructor; cbn; auto; lia.
  - rewrite bump_contact_emails.
    destruct (existsb _ f) eqn:E; [exact Hn |].
    apply (Permutation_NoDup (Permutation_cons_append _ _)). constructor; [| exact Hn].
    intros Hin. apply in_map_iff in Hin as [c [Hce Hin]].
    assert (Ht : existsb (fun c => String.eqb (CT.c_email c) e) f = true).
    { apply existsb_exists. exists c. split; [exact Hin | now apply String.eqb_eq]. }
    congruence.
Qed.

Lemma contact_frequency_ok (events : list CT.CalEvent) :
  contacts_ok (CT.contact_frequency events).
Proof.
  unfold CT.contact_frequency. apply fold_left_inv; [| split; constructor].
  intros acc event H. unfold CT.contact_event_step.
  destruct (Nat.leb 2 _); [| exact H].
  apply fold_left_inv; [| exact H].
  intros acc' a H'. unfold CT.contact_attendee_step.
  destruct (negb (CT.at_self a)); [| exact H'].
  destruct (str_truthy (CT.at_email a)); [| exact H'].
  now apply bump_contact_ok.
Qed.

(** [identify_recurring_contacts]: the top contacts are [min 10 n] of the
    [n] distinct contacts, ordered by decreasing count, each with a count
    of at least 1, with distinct emails. *)
Theorem identify_recurring_contacts_top (events : list CT.CalEvent) :
  let r := CT.identify_recurring_contacts (Some events) in
  length (CT.top_contacts r) = Nat.min 10 (CT.total_unique_contacts r) /\
  incl (CT.top_contacts r) (CT.contact_frequency events) /\
  Sorted (fun a b => (CT.c_count b <= CT.c_count a)%nat) (CT.top_contacts r) /\
  Forall (fun c => (1 <= CT.c_count c)%nat) (CT.top_contacts r) /\
  NoDup (map CT.c_email (CT.top_contacts r)).
Proof.
  cbn [CT.identify_recurring_contacts CT.top_contacts CT.total_unique_contacts].
  set (f := CT.contact_frequency events).
  pose proof (sort_by_count_desc_perm f) as Hp.
  pose proof (contact_frequency_ok events) as [Hc Hn]. fold f in Hc, Hn.
  assert (Hi : incl (firstn 10 (CT.sort_by_count_desc f)) f).
  { intros x Hx. apply (Permutation_in _ Hp). rewrite <- (firstn_skipn 10 (CT.sort_by_count_desc f)). apply in_or_app. now left. }
  split; [| split; [exact Hi | split; [| split]]].
  - rewrite length_firstn, (Permutation_length Hp). reflexivity.
  - apply sorted_firstn, sort_by_count_desc_sorted.
  - rewrite Forall_forall in *. intros x Hx. apply Hc, Hi, Hx.
  - rewrite <- firstn_map. apply nodup_firstn.
    apply (Permutation_NoDup (Permutation_map _ (Permutation_sym Hp))). exact Hn.
Qed.

Lemma existsb_perm {A : Type} (p : A -> bool) (l l' : list A) :
  Permutation l l' -> existsb p l = existsb p l'.
Proof.
  induction 1; cbn; try congruence.
  destruct (p x), (p y); reflexivity.
Qed.

Lemma existsb_head_max (h : CT.Contact) (rest : list CT.Contact) :
  Forall (count_desc h) rest ->
  existsb (fun c => Nat.leb 3 (CT.c_count c)) (h :: rest) = Nat.leb 3 (CT.c_count h).
Proof.
  intros Hall. cbn [existsb].
  destruct (Nat.leb_spec 3 (CT.c_count h)); [reflexivity |]. cbn [orb].
  apply Bool.not_true_iff_false. intros Hex. apply existsb_exists in Hex as [c [Hin Hc]].
  apply Nat.leb_le in Hc. rewrite Forall_forall in Hall. specialize (Hall c Hin).
  unfold count_desc in Hall. lia.
Qed.

(** [has_frequent_contacts] is true exactly when some contact shares at
    least 3 events: the first top contact has the largest count. *)
Theorem identify_recurring_contacts_frequent (events : list CT.CalEvent) :
  CT.has_frequent_contacts (CT.identify_recurring_contacts (Some events)) =
  Some (existsb (fun c => Nat.leb 3 (CT.c_count c)) (CT.contact_frequency events)).
Proof.
  cbn [CT.identify_recurring_contacts CT.has_frequent_contacts]. f_equal.
  set (f := CT.contact_frequency events).
  rewrite <- (existsb_perm _ _ _ (sort_by_count_desc_perm f)).
  pose proof (sort_by_count_desc_sorted f) as Hs.
  apply Sorted_StronglySorted in Hs; [| intros a b c H1 H2; unfold count_desc in *; lia].
  destruct (CT.sort_by_count_desc f) as [| h rest]; [reflexivity |].
  inversion Hs as [| ? ? _ Hall]; subst.
  rewrite (existsb_head_max h rest Hall). reflexivity.
Qed.


Lemma calculate_social_frequency_nonneg (n : nat) (days : Z) :
  0 <= CT.calculate_social_frequency n days.
Proof.
  unfold CT.calculate_social_frequency. cbv zeta. case_py_lt; [| lra].
  apply Qle_shift_div_l; [assumption |].
  assert (0 <= inject_Z (Z.of_nat n)) by (change 0 with (inject_Z 0); rewrite <- Zle_Qle; lia).
  lra.
Qed.

Lemma decline_ratio (bf cur : Q) :
  0 < bf -> ((bf - cur) / bf) * bf == bf - cur.
Proof. intros H. field. intros E. rewrite E in H. lra. Qed.

(** [detect_social_decline]: the current frequency is nonnegative, and
    the result is declining exactly when the baseline is positive and the
    current frequency is below three quarters of it. *)
Theorem detect_social_decline_declining (n : nat) (bf : Q) (days : Z) :
  let r := CT.detect_social_decline n bf days in
  0 <= CT.current_frequency r /\
  (CT.is_declining r = true <-> 0 < bf /\ CT.current_frequency r < bf * (3 # 4)).
Proof.
  cbv zeta. unfold CT.detect_social_decline. cbv zeta.
  cbn [CT.current_frequency CT.is_declining].
  pose proof (calculate_social_frequency_nonneg n days) as Hc.
  set (cur := CT.calculate_social_frequency n days) in *.
  split; [exact Hc |].
  destruct (py_lt_spec 0 bf) as [[-> Hbf] | [-> Hbf]].
  - pose proof (decline_ratio bf cur Hbf) as Hx.
    set (x := (bf - cur) / bf) in *.
    case_py_lt; split; intros Hd; try tauto; try discriminate.
    + split; [exact Hbf |]. nra.
    + exfalso. destruct Hd as [_ Hd]. nra.
  - case_py_lt; [lra |]. split; intros Hd; [discriminate | lra].
Qed.


(** The social [risk_contribution] of the detection agent is negative
    exactly when the baseline frequency is positive and the frequency of
    the last 14 days reaches 81/80 of it: [int()] of a decline of -1.25 %
    or less is negative, and only [min(40, .)] is applied. *)
Theorem social_contribution_negative (calendar_token : option string) (bf : Q) (n : nat)
    (Htok : str_truthy calendar_token = true) :
  (DS.sc_risk_contribution (DS.analyze_social_patterns calendar_token bf (Some n)) < 0)%Z <->
  0 < bf /\ bf * (81 # 80) <= inject_Z (Z.of_nat n) / 2.
Proof.
  unfold DS.analyze_social_patterns. rewrite Htok. cbn [negb DS.sc_risk_contribution].
  unfold CT.detect_social_decline, CT.calculate_social_frequency. cbv zeta.
  cbn [CT.decline_percentage].
  assert (Hw : py_lt 0 (inject_Z 14 / 7) = true) by reflexivity. rewrite Hw.
  set (N := inject_Z (Z.of_nat n)).
  assert (Hc : N / (inject_Z 14 / 7) == N / 2) by (unfold N; field).
  set (c := N / (inject_Z 14 / 7)) in *. set (y := N / 2) in *.
  rewrite Z.min_lt_iff, py_int_neg_iff.
  split; [intros [H | H]; [lia |] | intros H; right].
  - destruct (py_lt_spec 0 bf) as [[E Hbf] | [E Hbf]]; rewrite E in H; [| lra].
    pose proof (decline_ratio bf c Hbf) as Hx. set (x := (bf - c) / bf) in *.
    split; [exact Hbf |]. nra.
  - destruct H as [Hbf H].
    destruct (py_lt_spec 0 bf) as [[E _] | [_ Hbf']]; [rewrite E | lra].
    pose proof (decline_ratio bf c Hbf) as Hx. set (x := (bf - c) / bf) in *.
    nra.
Qed.


Ltac some_inj H :=
  match type of H with
  | Some ?x = Some ?y => let E := fresh in assert (E : x = y) by congruence; subst y; clear H
  end.

Lemma nat_Q_nonneg (n : nat) : 0 <= inject_Z (Z.of_nat n).
Proof. change 0 with (inject_Z 0). rewrite <- Zle_Qle. lia. Qed.

Lemma nat_Q_le (m n : nat) : (m <= n)%nat -> inject_Z (Z.of_nat m) <= inject_Z (Z.of_nat n).
Proof. intros H. rewrite <- Zle_Qle. lia. Qed.

Lemma nat_Q_pos (n : nat) : (0 < n)%nat -> 0 < inject_Z (Z.of_nat n).
Proof. intros H. change 0 with (inject_Z 0). rewrite <- Zlt_Qlt. lia. Qed.

Lemma ratio_unit_Q (a b : Q) : 0 < b -> 0 <= a <= b -> 0 <= a / b <= 1.
Proof.
  intros Hb [Ha Hab]. split.
  - apply Qle_shift_div_l; [exact Hb | lra].
  - apply Qle_shift_div_r; [exact Hb | lra].
Qed.

Lemma count_late_night_le (parse_hour : string -> option Z) (tracks : list ST.Track) (n : nat) :
  ST.count_late_night parse_hour tracks = Some n -> (n <= length tracks)%nat.
Proof.
  revert n. induction tracks as [| t rest IH]; intros n H; cbn [ST.count_late_night] in H.
  - injection H as <-. lia.
  - destruct (ST.played_at t) as [p |]; [| discriminate].
    destruct (parse_hour p) as [hour |]; [| discriminate].
    destruct (ST.count_late_night parse_hour rest) as [m |]; [| discriminate].
    injection H as <-. specialize (IH m eq_refl). cbn [length].
    destruct (_ || _); lia.
Qed.

Lemma late_night_inv (parse_hour : string -> option Z) (tracks : list ST.Track) (ln : ST.LateNight) :
  ST.detect_late_night_listening parse_hour tracks = Some ln ->
  (ST.ln_late_night_count ln <= ST.ln_total_count ln)%nat /\
  ST.ln_total_count ln = length tracks /\
  0 <= ST.ln_late_night_percentage ln <= 100 /\
  (ST.ln_is_concerning ln = true -> 40 <= ST.ln_late_night_percentage ln).
Proof.
  unfold ST.detect_late_night_listening.
  destruct (ST.count_late_night parse_hour tracks) as [n |] eqn:E; [| discriminate].
  intros H. injection H as <-. apply count_late_night_le in E.
  cbn [ST.ln_late_night_count ST.ln_total_count ST.ln_late_night_percentage ST.ln_is_concerning].
  pose proof (scaled_ratio_unit n (length tracks) E) as Hr. cbv zeta in Hr.
  set (raw := if Nat.ltb 0 (length tracks) then _ else _) in *.
  split; [exact E |]. split; [reflexivity |]. split.
  { split; [apply (py_round2_ge_int 0) | apply (py_round2_le_int 100)]; apply Hr. }
  intros Hc. apply (py_round2_ge_int 40).
  destruct (py_lt_spec 40 raw) as [[_ H] | [E' _]]; [change (inject_Z 40) with 40; lra |].
  rewrite E' in Hc. discriminate.
Qed.

(** [detect_late_night_listening]: the late-night count is at most the
    number of tracks; the rounded percentage lies in [0, 100] and is at
    least 40 when the result is concerning. *)
Theorem detect_late_night_listening_bounds (parse_hour : string -> option Z)
    (tracks : list ST.Track) (ln : ST.LateNight)
    (H : ST.detect_late_night_listening parse_hour tracks = Some ln) :
  (ST.ln_late_night_count ln <= ST.ln_total_count ln)%nat /\
  ST.ln_total_count ln = length tracks /\
  0 <= ST.ln_late_night_percentage ln <= 100 /\
  (ST.ln_is_concerning ln = true -> 40 <= ST.ln_late_night_percentage ln).
Proof. exact (late_night_inv parse_hour tracks ln H). Qed.

Lemma mood_points_bounds (ms : ST.MoodShift) (ln : ST.LateNight) :
  0 <= ST.ln_late_night_percentage ln ->
  (0 <= DS.mood_points ms ln <= 35)%Z /\
  (ST.ln_is_concerning ln = true -> 40 <= ST.ln_late_night_percentage ln ->
   (12 <= DS.mood_points ms ln)%Z).
Proof.
  intros Hp. unfold DS.mood_points. cbv zeta.
  pose proof (py_int_nonneg (Qabs (get (ST.valence_change ms) 0) * 100)) as H1.
  assert (H1' : 0 <= Qabs (get (ST.valence_change ms) 0) * 100)
    by (pose proof (Qabs_nonneg (get (ST.valence_change ms) 0)); lra).
  specialize (H1 H1').
  assert (H2 : (0 <= py_int (ST.ln_late_night_percentage ln * (3 # 10)))%Z)
    by (apply py_int_nonneg; lra).
  destruct (ST.shift_detected ms), (ST.ln_is_concerning ln); split; try lia;
    try (intros; discriminate); intros _ H40;
    (assert (H3 : (12 <= py_int (ST.ln_late_night_percentage ln * (3 # 10)))%Z)
       by (apply py_int_ge; [lia | change (inject_Z 12) with 12; lra])); lia.
Qed.

(** The mood [risk_contribution] of the detection agent lies in [0, 35]
    and is 0 when the analysis is unavailable; otherwise it equals the
    uncapped points (the [min(35, .)] never binds, as 20 + 15 = 35), and it
    is at least 12 when the late-night listening is concerning. *)
Theorem analyze_mood_patterns_contribution (parse_hour : string -> option Z)
    (after_cutoff : Z -> string -> option bool)
    (get_audio_features : list string -> list (list (string * Q)))
    (spotify_token : option string) (bv be : Q) (mood_tracks late_tracks : list ST.Track) :
  let r := DS.analyze_mood_patterns parse_hour after_cutoff get_audio_features
             spotify_token bv be mood_tracks late_tracks in
  (0 <= DS.mc_risk_contribution r <= 35)%Z /\
  (DS.mc_available r = false -> DS.mc_risk_contribution r = 0%Z) /\
  (forall ms ln, DS.mc_mood_shift r = Some ms -> DS.mc_late_night_analysis r = Some ln ->
     DS.mc_risk_contribution r = DS.mood_points ms ln /\
     (ST.ln_is_concerning ln = true -> (12 <= DS.mc_risk_contribution r)%Z)).
Proof.
  cbv zeta. unfold DS.analyze_mood_patterns. cbv zeta.
  destruct (negb (str_truthy spotify_token)).
  { cbn. split; [lia | split; [reflexivity | discriminate]]. }
  destruct (ST.detect_mood_shift _ _) as [ms |]; [| cbn; split; [lia | split; [reflexivity | discriminate]]].
  destruct (ST.detect_late_night_listening parse_hour late_tracks) as [ln |] eqn:E;
    [| cbn; split; [lia | split; [reflexivity | discriminate]]].
  apply late_night_inv in E as (_ & _ & [Hp Hp'] & Hc).
  pose proof (mood_points_bounds ms ln Hp) as [[Hlo Hhi] H12].
  cbn [DS.mc_risk_contribution DS.mc_available DS.mc_mood_shift DS.mc_late_night_analysis].
  rewrite Z.min_r by exact Hhi.
  split; [lia | split; [discriminate |]].
  intros ms' ln' Hm Hl. injection Hm as <-. injection Hl as <-.
  split; [reflexivity |]. intros Hcon. exact (H12 Hcon (Hc Hcon)).
Qed.

(** The calendar branch of [run_detection] always yields the default
    calendar metrics: it passes [analyze_social_patterns] a
    [baseline_frequency] keyword the method does not take, and the
    [TypeError] is caught. *)
Theorem calendar_branch_defaults (calendar_token : option string)
    (baseline_data : option (list (string * pyobj)))
    (fetch : nat -> option (list CT.CalEvent)) :
  DS.accepts_keywords DS.analyze_social_patterns_params ["days_back"; "baseline_frequency"] = false /\
  DS.calendar_branch calendar_token baseline_data fetch = DS.calendar_metrics_obj calendar_defaults.
Proof.
  split; [reflexivity |].
  unfold DS.calendar_branch. destruct (str_truthy calendar_token); reflexivity.
Qed.

Lemma calculate_mood_metrics_keys (after_cutoff : Z -> string -> option bool)
    (get_audio_features : list string -> list (list (string * Q)))
    (days_back : Z) (tracks : list ST.Track) (m : list (string * Q)) :
  ST.calculate_mood_metrics after_cutoff get_audio_features days_back tracks = Some m ->
  map fst m = [] \/ map fst m = ST.mood_keys ++ ["track_count"].
Proof.
  unfold ST.calculate_mood_metrics.
  destruct (ST.recent_tracks after_cutoff days_back tracks) as [[| t0 rest0] |];
    intros H; try discriminate; [some_inj H; now left |].
  destruct (get_audio_features _) as [| f fs]; some_inj H; [now left |].
  right. rewrite map_app, !map_map. reflexivity.
Qed.

Lemma enhanced_mood_metrics_keys (parse_hour : string -> option Z)
    (after_cutoff : Z -> string -> option bool)
    (get_audio_features : list string -> list (list (string * Q)))
    (days_back : Z) (t1 t2 t3 t4 : list ST.Track) (m : list (string * pyobj)) :
  ST.calculate_enhanced_mood_metrics parse_hour after_cutoff get_audio_features
    days_back t1 t2 t3 t4 = Some m ->
  map fst m = ["repeat_listening"; "genre_diversity"; "late_night_listening"] \/
  map fst m = ST.mood_keys ++ ["track_count"; "repeat_listening"; "genre_diversity";
                               "late_night_listening"].
Proof.
  unfold ST.calculate_enhanced_mood_metrics.
  destruct (ST.calculate_mood_metrics after_cutoff get_audio_features days_back t1)
    as [base |] eqn:E; [| discriminate].
  destruct (ST.detect_repeat_listening _ _ _); [| discriminate].
  destruct (ST.calculate_genre_diversity _ _ _); [| discriminate].
  destruct (ST.detect_late_night_listening _ _); [| discriminate].
  intros H. some_inj H. rewrite map_app, map_map. cbn [fst].
  rewrite map_ext with (g := fst) by reflexivity.
  apply calculate_mood_metrics_keys in E as [E | E]; rewrite E; [now left | right].
  rewrite <- app_assoc. reflexivity.
Qed.

(** The Spotify branch of [run_detection] always reports 90 current
    listening hours and 0 repeat-listening percent: the dict of
    [calculate_enhanced_mood_metrics] has neither a [total_listening_hours]
    nor a [repeat_percentage] key. *)
Theorem spotify_branch_listening_defaults (parse_hour : string -> option Z)
    (after_cutoff : Z -> string -> option bool)
    (get_audio_features : list string -> list (list (string * Q)))
    (spotify_token : option string) (baseline_data : option (list (string * pyobj)))
    (fetch : nat -> list ST.Track) :
  let m := DS.spotify_branch parse_hour after_cutoff get_audio_features
             spotify_token baseline_data fetch in
  DS.dict_get m "current_listening_hours" ONone = ONum 90 /\
  DS.dict_get m "repeat_listening_percentage" ONone = ONum 0.
Proof.
  cbv zeta. unfold DS.spotify_branch.
  destruct (str_truthy spotify_token); [| split; reflexivity].
  destruct (ST.calculate_enhanced_mood_metrics _ _ _ _ _ _ _ _) as [mood |] eqn:E;
    [| split; reflexivity].
  destruct (ST.detect_late_night_listening _ _); [| split; reflexivity].
  assert (Hk : forall k, In k ["total_listening_hours"; "repeat_percentage"] ->
                         lookup k mood = None).
  { intros k Hk. apply lookup_not_in.
    apply enhanced_mood_metrics_keys in E as [E | E]; rewrite E;
      cbn in Hk |- *; intros Hin;
      repeat (destruct Hk as [Hk | Hk]; [subst k |]); try exact Hk;
      repeat (destruct Hin as [Hin | Hin]; [discriminate Hin |]); exact Hin. }
  assert (H1 := Hk "total_listening_hours" ltac:(now left)).
  assert (H2 := Hk "repeat_percentage" ltac:(right; now left)).
  repeat match goal with
         | |- context [match ?x with Some _ => _ | None => _ end] =>
             lazymatch x with
             | lookup _ _ => fail
             | _ => destruct x
             end
         end;
    try (split; reflexivity);
    split; unfold DS.dict_get at 1; cbn [lookup String.eqb Ascii.eqb Bool.eqb];
    unfold DS.dict_get; rewrite ?H1, ?H2; reflexivity.
Qed.

Lemma filter_social_events_length (events : list CT.CalEvent) :
  (length (CT.filter_social_events events) <= length events)%nat.
Proof.
  induction events as [| e rest IH]; cbn [CT.filter_social_events length]; [lia |].
  destruct (CT.keep_social_event e); cbn [length]; lia.
Qed.

(** [CalendarTool.analyze_social_patterns]: the number of social events is
    at most the number of events, and the social frequency is
    nonnegative. *)
Theorem calendar_social_patterns_counts (days_back : Z) (all_events : list CT.CalEvent)
    (items_declined items_contacts : option (list CT.CalEvent)) :
  let r := CT.analyze_social_patterns days_back (Some all_events) items_declined items_contacts in
  exists k n q,
    lookup "total_events" r = Some (ONum n) /\
    lookup "social_events" r = Some (ONum k) /\
    lookup "social_frequency" r = Some (ONum q) /\
    0 <= k <= n /\ 0 <= q.
Proof.
  cbv zeta. unfold CT.analyze_social_patterns. cbv zeta.
  set (k := length (CT.filter_social_events all_events)).
  pose proof (filter_social_events_length all_events) as Hk. fold k in Hk.
  eexists _, _, _. split; [reflexivity | split; [reflexivity | split; [reflexivity |]]].
  split; [split; [apply nat_Q_nonneg | apply nat_Q_le, Hk] |].
  apply (py_round2_ge_int 0). change (inject_Z 0) with 0.
  case_py_lt; [| lra].
  apply Qle_shift_div_l; [assumption |]. pose proof (nat_Q_nonneg k). lra.
Qed.

(** [detect_mood_shift]: the reason [Insufficient data] is given exactly
    when the current or the baseline metrics are empty, and then no shift
    is detected; a concerning shift is always a detected shift. *)
Theorem detect_mood_shift_cases (baseline_metrics current_metrics : list (string * Q))
    (ms : ST.MoodShift)
    (H : ST.detect_mood_shift baseline_metrics (Some current_metrics) = Some ms) :
  (ST.reason ms = Some "Insufficient data" <-> current_metrics = [] \/ baseline_metrics = []) /\
  (current_metrics = [] \/ baseline_metrics = [] ->
   ST.shift_detected ms = false /\ ST.ms_is_concerning ms = None) /\
  (ST.ms_is_concerning ms = Some true -> ST.shift_detected ms = true).
Proof.
  revert H. unfold ST.detect_mood_shift.
  destruct current_metrics as [| c cs], baseline_metrics as [| b bs]; intros H; some_inj H;
    cbn [ST.reason ST.shift_detected ST.ms_is_concerning];
    try (split; [split; [intros _; auto | reflexivity] | split; [auto | discriminate]]).
  split; [split; [discriminate | intros [E | E]; discriminate] |].
  split; [intros [E | E]; discriminate |].
  intros Hc. apply (f_equal (fun o => match o with Some x => x | None => false end)) in Hc.
  cbv beta iota in Hc. apply andb_true_iff in Hc as [Hv _]. now rewrite Hv.
Qed.

(** Both subscores are at most 100 for every input; they
    are non-negative when the late-night and repeat percentages and the
    declined-invitation rate are non-negative and the current social
    events and unique contacts do not exceed their baselines. *)
Theorem subscores_capped_and_nonneg_on_valid_inputs :
  forall sm cm,
  calculate_spotify_score sm <= 100 /\
  calculate_calendar_score cm <= 100 /\
  (0 <= get sm.(late_night_percentage) 0 ->
   0 <= get sm.(repeat_listening_percentage) 0 ->
   0 <= calculate_spotify_score sm) /\
  (0 <= get cm.(declined_invitation_rate) 0 ->
   get cm.(current_social_events) 8 <= get cm.(baseline_social_events) 8 ->
   get cm.(current_unique_contacts) 5 <= get cm.(baseline_unique_contacts) 5 ->
   0 <= calculate_calendar_score cm).
Proof.
  intros sm cm. split; [| split; [| split]].
  - apply py_min_le_l.
  - apply py_min_le_l.
  - intros Hl Hr. unfold calculate_spotify_score. cbv zeta.
    apply py_min_nonneg; [lra |].
    set (bh := get sm.(baseline_listening_hours) 15) in *.
    set (ch := get sm.(current_listening_hours) 15) in *.
    set (vd := get sm.(baseline_valence) (1 # 2) - get sm.(current_valence) (1 # 2)) in *.
    assert (H1 : 0 <= py_min 25 ((get sm.(late_night_percentage) 0 / 50) * 25))
      by (apply py_min_nonneg; qlin).
    assert (H2 : 0 <= py_min (25 # 2)
                   ((get sm.(repeat_listening_percentage) 0 / 40) * (25 # 2)))
      by (apply py_min_nonneg; qlin).
    revert H1 H2.
    generalize (py_min 25 ((get sm.(late_night_percentage) 0 / 50) * 25)).
    generalize (py_min (25 # 2) ((get sm.(repeat_listening_percentage) 0 / 40) * (25 # 2))).
    intros t2 t1 H1 H2.
    destruct (py_lt_spec 0 vd) as [[-> Hv] | [-> Hv]].
    + assert (H3 : 0 <= py_min 25 ((vd / (3 # 10)) * 25))
        by (apply py_min_nonneg; qlin).
      revert H3. generalize (py_min 25 ((vd / (3 # 10)) * 25)). intros t3 H3.
      set (ratio := ch / bh).
      repeat case_py_lt; cbv iota; lra.
    + set (ratio := ch / bh).
      repeat case_py_lt; cbv iota; lra.
  - intros Hd He Hc. unfold calculate_calendar_score. cbv zeta.
    apply py_min_nonneg; [lra |].
    set (be := get cm.(baseline_social_events) 8) in *.
    set (ce := get cm.(current_social_events) 8) in *.
    set (bc := get cm.(baseline_unique_contacts) 5) in *.
    set (cc := get cm.(current_unique_contacts) 5) in *.
    assert (H2 : 0 <= py_min 30 ((get cm.(declined_invitation_rate) 0 / 50) * 30))
      by (apply py_min_nonneg; qlin).
    revert H2. generalize (py_min 30 ((get cm.(declined_invitation_rate) 0 / 50) * 30)).
    intros t2 H2.
    destruct (py_lt_spec 0 be) as [[-> Hb] | [-> Hb]];
      destruct (py_lt_spec 0 bc) as [[-> Hb'] | [-> Hb']]; cbv iota.
    + pose proof (ratio_nonneg be ce Hb He).
      pose proof (ratio_nonneg bc cc Hb' Hc).
      assert (0 <= py_min 50 (((be - ce) / be) * (6667 # 100)))
        by (apply py_min_nonneg; qlin).
      assert (0 <= py_min 20 ((((bc - cc) / bc) / (1 # 2)) * 20))
        by (apply py_min_nonneg; qlin).
      lra.
    + pose proof (ratio_nonneg be ce Hb He).
      assert (0 <= py_min 50 (((be - ce) / be) * (6667 # 100)))
        by (apply py_min_nonneg; qlin).
      lra.
    + pose proof (ratio_nonneg bc cc Hb' Hc).
      assert (0 <= py_min 20 ((((bc - cc) / bc) / (1 # 2)) * 20))
        by (apply py_min_nonneg; qlin).
      lra.
    + lra.
Qed.

Lemma filter_opt_raises {A : Type} (p : A -> option bool) (l : list A) :
  Exists (fun x => p x = None) l -> filter_opt p l = None.
Proof.
  induction 1 as [x l Hx | x l _ IH]; cbn [filter_opt].
  - rewrite Hx. reflexivity.
  - destruct (p x); [rewrite IH |]; reflexivity.
Qed.

Lemma recent_tracks_utc_raises (naive_after : Z -> string -> option bool)
    (days_back : Z) (tracks : list ST.Track) :
  Exists utc_stamped tracks ->
  ST.recent_tracks (utc_after_cutoff naive_after) days_back tracks = None.
Proof.
  intros H. unfold ST.recent_tracks. apply filter_opt_raises.
  induction H as [t l (p & Hp & Hz) | t l _ IH].
  - apply Exists_cons_hd. rewrite Hp. unfold utc_after_cutoff. rewrite Hz. reflexivity.
  - apply Exists_cons_tl. exact IH.
Qed.

(** [calculate_mood_metrics] raises on a listening history with a track
    stamped the way Spotify stamps [played_at] (a trailing ["Z"]): the
    time-window filter compares an aware datetime with the naive
    [utcnow()] cutoff. *)
Theorem calculate_mood_metrics_raises_on_utc_history
    (naive_after : Z -> string -> option bool)
    (get_audio_features : list string -> list (list (string * Q)))
    (days_back : Z) (tracks : list ST.Track) (H : Exists utc_stamped tracks) :
  ST.calculate_mood_metrics (utc_after_cutoff naive_after) get_audio_features
    days_back tracks = None.
Proof.
  unfold ST.calculate_mood_metrics. rewrite recent_tracks_utc_raises by exact H.
  reflexivity.
Qed.

(** [detect_repeat_listening] raises on a listening history with a
    ["Z"]-stamped track, for the same reason. *)
Theorem detect_repeat_listening_raises_on_utc_history
    (naive_after : Z -> string -> option bool)
    (days_back : Z) (tracks : list ST.Track) (H : Exists utc_stamped tracks) :
  ST.detect_repeat_listening (utc_after_cutoff naive_after) days_back tracks = None.
Proof.
  unfold ST.detect_repeat_listening. rewrite recent_tracks_utc_raises by exact H.
  reflexivity.
Qed.

(** [calculate_genre_diversity] raises on a listening history with a
    ["Z"]-stamped track, for the same reason. *)
Theorem calculate_genre_diversity_raises_on_utc_history
    (naive_after : Z -> string -> option bool)
    (days_back : Z) (tracks : list ST.Track) (H : Exists utc_stamped tracks) :
  ST.calculate_genre_diversity (utc_after_cutoff naive_after) days_back tracks = None.
Proof.
  unfold ST.calculate_genre_diversity. rewrite recent_tracks_utc_raises by exact H.
  reflexivity.
Qed.

(** The Spotify branch of [run_detection] falls back to the default
    metrics as soon as one of the histories read by
    [calculate_enhanced_mood_metrics] (for the mood metrics, the repeat
    analysis or the diversity) holds a ["Z"]-stamped track. *)
Theorem spotify_branch_defaults_on_utc_history (parse_hour : string -> option Z)
    (naive_after : Z -> string -> option bool)
    (get_audio_features : list string -> list (list (string * Q)))
    (spotify_token : option string) (baseline_data : option (list (string * pyobj)))
    (fetch : nat -> list ST.Track)
    (H : Exists utc_stamped (fetch 1%nat) \/ Exists utc_stamped (fetch 2%nat) \/
         Exists utc_stamped (fetch 3%nat)) :
  DS.spotify_branch parse_hour (utc_after_cutoff naive_after) get_audio_features
    spotify_token baseline_data fetch = DS.spotify_metrics_obj spotify_defaults.
Proof.
  unfold DS.spotify_branch. destruct (str_truthy spotify_token); [| reflexivity].
  assert (E : ST.calculate_enhanced_mood_metrics parse_hour (utc_after_cutoff naive_after)
                get_audio_features 30 (fetch 1%nat) (fetch 2%nat) (fetch 3%nat)
                (fetch 4%nat) = None).
  { unfold ST.calculate_enhanced_mood_metrics.
    destruct H as [H | [H | H]].
    - unfold ST.calculate_mood_metrics. rewrite recent_tracks_utc_raises by exact H.
      reflexivity.
    - destruct (ST.calculate_mood_metrics _ _ _ _); [| reflexivity].
      unfold ST.detect_repeat_listening. rewrite recent_tracks_utc_raises by exact H.
      reflexivity.
    - destruct (ST.calculate_mood_metrics _ _ _ _); [| reflexivity].
      destruct (ST.detect_repeat_listening _ _ _); [| reflexivity].
      unfold ST.calculate_genre_diversity. rewrite recent_tracks_utc_raises by exact H.
      reflexivity. }
  rewrite E. reflexivity.
Qed.

(** [analyze_mood_patterns] of the detection agent reports the mood
    analysis unavailable, with a risk contribution of 0, when the history
    read by [detect_mood_shift] holds a ["Z"]-stamped track. *)
Theorem analyze_mood_patterns_unavailable_on_utc_history (parse_hour : string -> option Z)
    (naive_after : Z -> string -> option bool)
    (get_audio_features : list string -> list (list (string * Q)))
    (spotify_token : option string) (bv be : Q) (mood_tracks late_tracks : list ST.Track)
    (H : Exists utc_stamped mood_tracks) :
  let r := DS.analyze_mood_patterns parse_hour (utc_after_cutoff naive_after)
             get_audio_features spotify_token bv be mood_tracks late_tracks in
  DS.mc_available r = false /\ DS.mc_risk_contribution r = 0%Z.
Proof.
  cbv zeta. unfold DS.analyze_mood_patterns.
  destruct (negb (str_truthy spotify_token)); [split; reflexivity |].
  unfold ST.calculate_mood_metrics. rewrite recent_tracks_utc_raises by exact H.
  split; reflexivity.
Qed.

(** ** Witnesses *)

Lemma composite_fused_clamped_rounded_witness :
  exists r,
    calculate_risk severe_spotify severe_calendar None = Ok r /\
    r.(score) =
      py_round (py_min 100 (py_max 0
        (calculate_spotify_score severe_spotify * (4 # 10)
         + calculate_calendar_score severe_calendar * (5 # 10)
         + calculate_baseline_risk None * (1 # 10)))).
Proof.
  destruct (calculate_risk severe_spotify severe_calendar None) as [r | e] eqn:E.
  - exists r. split; [reflexivity |].
    destruct (composite_fused_clamped_rounded _ _ _ _ E) as (_ & Hs & _).
    exact Hs.
  - vm_compute in E. discriminate.
Defined.

Lemma unlisted_level_gets_moderate_message_no_actions_witness :
  ~ In "mild" ["low"; "moderate"; "elevated"; "high"; "critical"] /\
  generate_empathetic_message "mild" 40 = message_moderate.
Proof.
  assert (Hn : ~ In "mild" ["low"; "moderate"; "elevated"; "high"; "critical"]).
  { cbn. intros [H | [H | [H | [H | [H | H]]]]]; try discriminate; exact H. }
  split; [exact Hn |].
  destruct (unlisted_level_gets_moderate_message_no_actions "mild" Hn) as (_ & Hm & _).
  apply Hm.
Defined.

(** ** Witnesses of the further properties *)

Lemma calculate_risk_level_monotone_witness :
  (10 <= 95)%Z /\
  (level_rank (Utils.calculate_risk_level 10) <= level_rank (Utils.calculate_risk_level 95))%nat.
Proof. split; [lia | apply calculate_risk_level_monotone; lia]. Defined.

Lemma filter_by_anxiety_level_keeps_search_results_witness :
  Forall (fun f => exists q, EM.mf_rsvp_count f = PNum q)
    ((fun _ : string => [sample_meetup]) "College Station") /\
  EM.filter_by_anxiety_level
    (EM.get_all_events (fun _ => [sample_meetup]) (fun _ => []) "College Station") "high"
  = Some (EM.get_all_events (fun _ => [sample_meetup]) (fun _ => []) "College Station").
Proof.
  assert (H : Forall (fun f => exists q, EM.mf_rsvp_count f = PNum q)
                ((fun _ : string => [sample_meetup]) "College Station")).
  { constructor; [exists 120; reflexivity | constructor]. }
  split; [exact H |].
  exact (filter_by_anxiety_level_keeps_search_results _ _ _ _ H).
Defined.

Lemma recommend_events_subseq_within_limit_witness :
  exists r,
  EM.recommend_events (fun _ => "0") (fun _ => [sample_meetup]) (fun _ => [])
    "College Station" "medium" (Some ["games"]) 5 = Some r /\
  subseq r (EM.get_all_events (fun _ => [sample_meetup]) (fun _ => []) "College Station") /\
  ((0 <= 5)%Z -> (length r <= Z.to_nat 5)%nat).
Proof.
  destruct (EM.recommend_events (fun _ => "0") (fun _ => [sample_meetup]) (fun _ => [])
              "College Station" "medium" (Some ["games"]) 5) as [r |] eqn:E.
  - exists r. split; [reflexivity |].
    exact (recommend_events_subseq_within_limit _ _ _ _ _ _ _ _ E).
  - vm_compute in E. discriminate.
Defined.

Lemma social_contribution_negative_witness :
  str_truthy (Some "ya29.token") = true /\
  ((DS.sc_risk_contribution (DS.analyze_social_patterns (Some "ya29.token") 1 (Some 3%nat)) < 0)%Z <->
   0 < 1 /\ 1 * (81 # 80) <= inject_Z (Z.of_nat 3) / 2).
Proof. split; [reflexivity | apply social_contribution_negative; reflexivity]. Defined.

Lemma detect_late_night_listening_bounds_witness :
  exists ln,
  ST.detect_late_night_listening sample_parse_hour [sample_track] = Some ln /\
  (ST.ln_late_night_count ln <= ST.ln_total_count ln)%nat /\
  ST.ln_total_count ln = length [sample_track] /\
  0 <= ST.ln_late_night_percentage ln <= 100 /\
  (ST.ln_is_concerning ln = true -> 40 <= ST.ln_late_night_percentage ln).
Proof.
  eexists. split; [reflexivity |].
  apply (detect_late_night_listening_bounds sample_parse_hour [sample_track]). reflexivity.
Defined.

Lemma detect_mood_shift_cases_witness :
  exists ms,
  ST.detect_mood_shift [("valence", 1 # 2); ("energy", 1 # 2)]
    (Some [("valence", 1 # 5); ("energy", 1 # 5)]) = Some ms /\
  (ST.reason ms = Some "Insufficient data" <->
   [("valence", 1 # 5); ("energy", 1 # 5)] = [] \/ [("valence", 1 # 2); ("energy", 1 # 2)] = []) /\
  ([("valence", 1 # 5); ("energy", 1 # 5)] = [] \/ [("valence", 1 # 2); ("energy", 1 # 2)] = [] ->
   ST.shift_detected ms = false /\ ST.ms_is_concerning ms = None) /\
  (ST.ms_is_concerning ms = Some true -> ST.shift_detected ms = true).
Proof.
  eexists. split; [reflexivity |].
  apply (detect_mood_shift_cases [("valence", 1 # 2); ("energy", 1 # 2)]
           [("valence", 1 # 5); ("energy", 1 # 5)]).
  reflexivity.
Defined.

Lemma sample_track_utc_stamped : Exists utc_stamped [sample_track].
Proof.
  apply Exists_cons_hd. exists "2024-03-01T23:40:00Z". split; reflexivity.
Defined.

Lemma calculate_mood_metrics_raises_on_utc_history_witness :
  Exists utc_stamped [sample_track] /\
  ST.calculate_mood_metrics (utc_after_cutoff (fun _ _ => Some true))
    (fun _ => [[("valence", 1 # 2)]]) 14 [sample_track] = None.
Proof.
  split; [exact sample_track_utc_stamped |].
  apply (calculate_mood_metrics_raises_on_utc_history (fun _ _ => Some true)
           (fun _ => [[("valence", 1 # 2)]]) 14 [sample_track]).
  exact sample_track_utc_stamped.
Defined.

Lemma detect_repeat_listening_raises_on_utc_history_witness :
  Exists utc_stamped [sample_track] /\
  ST.detect_repeat_listening (utc_after_cutoff (fun _ _ => Some true)) 7 [sample_track]
  = None.
Proof.
  split; [exact sample_track_utc_stamped |].
  apply (detect_repeat_listening_raises_on_utc_history (fun _ _ => Some true) 7
           [sample_track]).
  exact sample_track_utc_stamped.
Defined.

Lemma calculate_genre_diversity_raises_on_utc_history_witness :
  Exists utc_stamped [sample_track] /\
  ST.calculate_genre_diversity (utc_after_cutoff (fun _ _ => Some true)) 14 [sample_track]
  = None.
Proof.
  split; [exact sample_track_utc_stamped |].
  apply (calculate_genre_diversity_raises_on_utc_history (fun _ _ => Some true) 14
           [sample_track]).
  exact sample_track_utc_stamped.
Defined.

Lemma spotify_branch_defaults_on_utc_history_witness :
  DS.spotify_branch sample_parse_hour (utc_after_cutoff (fun _ _ => Some true))
    (fun _ => [[("valence", 1 # 2)]]) (Some "token") None (fun _ => [sample_track])
  = DS.spotify_metrics_obj spotify_defaults.
Proof.
  apply (spotify_branch_defaults_on_utc_history sample_parse_hour (fun _ _ => Some true)
           (fun _ => [[("valence", 1 # 2)]]) (Some "token") None (fun _ => [sample_track])).
  left. exact sample_track_utc_stamped.
Defined.

Lemma analyze_mood_patterns_unavailable_on_utc_history_witness :
  let r := DS.analyze_mood_patterns sample_parse_hour (utc_after_cutoff (fun _ _ => Some true))
             (fun _ => [[("valence", 1 # 2)]]) (Some "token") (1 # 2) (1 # 2)
             [sample_track] [sample_track] in
  DS.mc_available r = false /\ DS.mc_risk_contribution r = 0%Z.
Proof.
  apply (analyze_mood_patterns_unavailable_on_utc_history sample_parse_hour
           (fun _ _ => Some true) (fun _ => [[("valence", 1 # 2)]]) (Some "token")
           (1 # 2) (1 # 2) [sample_track] [sample_track]).
  exact sample_track_utc_stamped.
Defined.

Lemma subscores_capped_and_nonneg_on_valid_inputs_witness :
  0 <= calculate_calendar_score severe_calendar.
Proof.
  apply (proj2 (proj2 (proj2 (subscores_capped_and_nonneg_on_valid_inputs
                                severe_spotify severe_calendar))));
    vm_compute; intros Hc; discriminate Hc.
Defined.
